(** * ContentGen AI: client-side contract of the marketing content generator

    A shallow embedding of the React front end (content generator, trends
    viewer, sentiment analyzer) and of its axios adapter.  Component state is
    a record, an event handler is a computation in a small monad that threads
    the component state, records the observable effects (toasts, console
    output, file reads, HTTP requests) and may reject, and a render function
    maps a state to a description of what is on screen. *)

From Stdlib Require Import NArith ZArith String Ascii DecimalString Floats Lia.
From Stdlib.Strings Require Import Byte.
From stdpp Require Import base option list gmap.

#[local] Set Warnings "-inexact-float".

Local Open Scope N_scope.

(** ** ECMAScript strings

    A JavaScript string is a sequence of UTF-16 code units. *)

Abbreviation jsstring := (list N).

Module JS.

(** A source literal made of ASCII characters. *)
Definition lit (s : string) : jsstring :=
  List.map N_of_ascii (list_ascii_of_string s).

(** [a === b] on strings. *)
Definition str_eqb (a b : jsstring) : bool := bool_decide (a = b).

(** ToBoolean on a string: only the empty string is falsy. *)
Definition truthy (s : jsstring) : bool :=
  match s with
  | [] => false
  | _ :: _ => true
  end.

(** ToBoolean on [string | null]. *)
Definition truthy_opt (s : option jsstring) : bool :=
  match s with
  | Some v => truthy v
  | None => false
  end.

(** WhiteSpace and LineTerminator code points, the ones
    [String.prototype.trim] strips. *)
Definition isWhiteSpace (c : N) : bool :=
  (c =? 0x0009) || (c =? 0x000A) || (c =? 0x000B) || (c =? 0x000C) ||
  (c =? 0x000D) || (c =? 0x0020) || (c =? 0x00A0) || (c =? 0x1680) ||
  ((0x2000 <=? c) && (c <=? 0x200A)) ||
  (c =? 0x2028) || (c =? 0x2029) || (c =? 0x202F) || (c =? 0x205F) ||
  (c =? 0x3000) || (c =? 0xFEFF).

Fixpoint trimStart (s : jsstring) : jsstring :=
  match s with
  | [] => []
  | c :: rest => if isWhiteSpace c then trimStart rest else s
  end.

Definition trimEnd (s : jsstring) : jsstring :=
  rev (trimStart (rev s)).

(** [s.trim()] *)
Definition trim (s : jsstring) : jsstring := trimEnd (trimStart s).

Fixpoint startsWith (s p : jsstring) : bool :=
  match p, s with
  | [], _ => true
  | _ :: _, [] => false
  | a :: p', b :: s' => (a =? b) && startsWith s' p'
  end.

(** [s.includes(sub)] *)
Fixpoint includes (s sub : jsstring) : bool :=
  startsWith s sub ||
  match s with
  | [] => false
  | _ :: rest => includes rest sub
  end.

(** [arr.includes(x)] on an array of strings. *)
Definition array_includes (arr : list jsstring) (x : jsstring) : bool :=
  bool_decide (x ∈ arr).

(** ToString of an array length (a non-negative integer). *)
Definition length_toString (n : nat) : jsstring :=
  lit (NilEmpty.string_of_uint (Nat.to_uint n)).

End JS.


(** ** Promises, effects and the handler monad *)

(** What a rejected promise carries to a [catch] clause.  The handlers only
    ask whether the value is an [Error] and, if so, for its [message]. *)
Inductive Thrown : Type :=
| ThrownError (message : jsstring)
| ThrownOther.

Inductive Settled (A : Type) : Type :=
| Fulfilled (a : A)
| Rejected (error : Thrown).
Arguments Fulfilled {A} a.
Arguments Rejected {A} error.

Record File : Type := mkFile {
  name : jsstring;
  size : N;
  type : jsstring;
  bytes : list byte
}.

Record Toast : Type := mkToast {
  title : jsstring;
  description : jsstring;
  variant : option jsstring
}.

Inductive Method : Type := GET | POST.

(** The JSON bodies the adapter sends; an [undefined] property is left out
    by the serializer, hence the option. *)
Inductive Body : Type :=
| GenerateBody (prompt : jsstring) (file : option jsstring)
| AnalyzeBody (content : jsstring).

Record AxiosInstance : Type := mkAxios {
  baseURL : jsstring;
  headers : list (jsstring * jsstring)
}.

Record Request : Type := mkRequest {
  instance : AxiosInstance;
  method : Method;
  url : jsstring;
  data : option Body
}.

Inductive Effect : Type :=
| Toasted (t : Toast)
| ConsoleError (label : jsstring) (error : Thrown)
| FileRead (f : File)
| Http (r : Request).

Definition isToast (e : Effect) : bool :=
  match e with
  | Toasted _ => true
  | _ => false
  end.

(** A handler runs from the component state it closes over, may settle
    either way, leaves a component state and a trace of effects.  Events are
    handled one at a time, so the state a handler closes over (the one of
    the last render) is the state it starts from. *)
Definition Handler (S A : Type) : Type := S → Settled A * S * list Effect.

#[global] Instance handler_ret {S} : MRet (Handler S) :=
  λ A a s, (Fulfilled a, s, []).

#[global] Instance handler_bind {S} : MBind (Handler S) :=
  λ A B k m s,
    match m s with
    | (Fulfilled a, s1, e1) =>
        match k a s1 with
        | (r, s2, e2) => (r, s2, e1 ++ e2)
        end
    | (Rejected error, s1, e1) => (Rejected error, s1, e1)
    end.

Definition closure {S} : Handler S S := λ s, (Fulfilled s, s, []).

Definition setState {S} (f : S → S) : Handler S unit :=
  λ s, (Fulfilled tt, f s, []).

Definition emit {S} (e : Effect) : Handler S unit :=
  λ s, (Fulfilled tt, s, [e]).

Definition toast {S} (t : Toast) : Handler S unit := emit (Toasted t).

Definition console_error {S} (label : jsstring) (error : Thrown) : Handler S unit :=
  emit (ConsoleError label error).

(** [await p] for a promise that issues the effect [e] and settles as [r]. *)
Definition await {S A} (e : Effect) (r : Settled A) : Handler S A :=
  λ s, (r, s, [e]).

(** [try { body } catch (error) { handler } finally { final }] *)
Definition try_catch_finally {S}
    (body : Handler S unit) (handler : Thrown → Handler S unit)
    (final : Handler S unit) : Handler S unit :=
  λ s,
    match body s with
    | (r1, s1, e1) =>
        match (match r1 with
               | Fulfilled _ => (Fulfilled tt, s1, [])
               | Rejected error => handler error s1
               end) with
        | (r2, s2, e2) =>
            match final s2 with
            | (r3, s3, e3) =>
                (match r3 with
                 | Fulfilled _ => r2
                 | Rejected error => Rejected error
                 end, s3, e1 ++ e2 ++ e3)
            end
        end
    end.

Definition run_state {S A} (r : Settled A * S * list Effect) : S := r.1.2.
Definition run_effects {S A} (r : Settled A * S * list Effect) : list Effect := r.2.
Definition run_result {S A} (r : Settled A * S * list Effect) : Settled A := r.1.1.

(** ** Base64 and data URLs

    [FileReader.readAsDataURL] is the platform's; on success its result is
    "a single base64 data-URL string": the media type of the file followed
    by the RFC 4648 base64 text of its bytes. *)

Module Base64.

Definition pad : N := 61.

(** The base64 alphabet: A-Z, a-z, 0-9, plus and slash. *)
Definition alphabet (n : N) : N :=
  if n <? 26 then 65 + n
  else if n <? 52 then 97 + (n - 26)
  else if n <? 62 then 48 + (n - 52)
  else if n =? 62 then 43
  else 47.

Definition value (c : N) : option N :=
  if (65 <=? c) && (c <=? 90) then Some (c - 65)
  else if (97 <=? c) && (c <=? 122) then Some (c - 97 + 26)
  else if (48 <=? c) && (c <=? 57) then Some (c - 48 + 52)
  else if c =? 43 then Some 62
  else if c =? 47 then Some 63
  else None.

(** Three octets regrouped as four sextets. *)
Definition sextets (a b c : N) : N * N * N * N :=
  (a / 4, (a mod 4) * 16 + b / 16, (b mod 16) * 4 + c / 64, c mod 64).

Definition octet1 (w x : N) : N := w * 4 + x / 16.
Definition octet2 (x y : N) : N := (x mod 16) * 16 + y / 4.
Definition octet3 (y z : N) : N := (y mod 4) * 64 + z.

Fixpoint encode (bs : list byte) : jsstring :=
  match bs with
  | [] => []
  | [a] =>
      match sextets (Byte.to_N a) 0 0 with
      | (w, x, _, _) => [alphabet w; alphabet x; pad; pad]
      end
  | [a; b] =>
      match sextets (Byte.to_N a) (Byte.to_N b) 0 with
      | (w, x, y, _) => [alphabet w; alphabet x; alphabet y; pad]
      end
  | a :: b :: c :: rest =>
      match sextets (Byte.to_N a) (Byte.to_N b) (Byte.to_N c) with
      | (w, x, y, z) =>
          alphabet w :: alphabet x :: alphabet y :: alphabet z :: encode rest
      end
  end.

Definition is_nil {A} (l : list A) : bool :=
  match l with
  | [] => true
  | _ :: _ => false
  end.

(** Modelled from the spec: the base64 decoding that the receiving side
    applies to the payload of the data URL (see [DataURL.decode]); groups of
    four characters, the last one possibly padded. *)
Fixpoint decode (s : jsstring) : option (list byte) :=
  match s with
  | [] => Some []
  | c1 :: c2 :: c3 :: c4 :: rest =>
      w ← value c1;
      x ← value c2;
      b1 ← Byte.of_N (octet1 w x);
      if c3 =? pad then
        if (c4 =? pad) && is_nil rest then Some [b1] else None
      else
        y ← value c3;
        b2 ← Byte.of_N (octet2 x y);
        if c4 =? pad then
          if is_nil rest then Some [b1; b2] else None
        else
          z ← value c4;
          b3 ← Byte.of_N (octet3 y z);
          tl ← decode rest;
          Some (b1 :: b2 :: b3 :: tl)
  | _ => None
  end.

End Base64.

Module DataURL.

(** The result of a successful [reader.readAsDataURL(file)], for a file
    that has a media type (the only files the view ever reads). *)
Definition readAsDataURL (f : File) : jsstring :=
  JS.lit "data:" ++ type f ++ JS.lit ";base64," ++ Base64.encode (bytes f).

Definition comma : N := 44.

(** Split at the first comma. *)
Fixpoint split_comma (s : jsstring) : option (jsstring * jsstring) :=
  match s with
  | [] => None
  | c :: rest =>
      if c =? comma then Some ([], rest)
      else
        match split_comma rest with
        | Some (h, p) => Some (c :: h, p)
        | None => None
        end
  end.

Definition endsWith (s suffix : jsstring) : bool :=
  JS.startsWith (rev s) (rev suffix).

Definition no_comma (s : jsstring) : bool :=
  forallb (λ c, negb (c =? comma)) s.

(** Modelled from the spec: the receiving side's decoder of the transmitted
    [file] string, which belongs to the backend and is not part of the
    front-end sources.  The spec asks that "decoding the produced string
    yields the original byte content (base64 data-URL fidelity)": the text
    before the first comma is the [data:...;base64] header, the text after
    it is base64. *)
Definition decode (s : jsstring) : option (list byte) :=
  match split_comma s with
  | Some (header, payload) =>
      if JS.startsWith header (JS.lit "data:") && endsWith header (JS.lit ";base64")
      then Base64.decode payload
      else None
  | None => None
  end.

End DataURL.

(** ** The HTTP client adapter (lib/api.ts) *)

Module Api.

Record GenerateResponse : Type := mkGenerateResponse {
  content : jsstring;
  image_url : option jsstring
}.

Record TrendsResponse : Type := mkTrendsResponse {
  trends : list jsstring
}.

Record AnalyzeResponse : Type := mkAnalyzeResponse {
  sentiment : float;
  sentiment_label : jsstring
}.

End Api.

(** Everything a handler awaits is answered by the world: whether the file
    reader fires [onload] or [onerror], and how each request settles. *)
Record World : Type := mkWorld {
  reader_loads : File → bool;
  generate_reply : Request → Settled Api.GenerateResponse;
  trends_reply : Request → Settled Api.TrendsResponse;
  analyze_reply : Request → Settled Api.AnalyzeResponse
}.

Module Axios.

Definition create (baseURL : jsstring) : AxiosInstance :=
  {| baseURL := baseURL;
     headers := [(JS.lit "Content-Type", JS.lit "application/json")] |}.

Definition post (api : AxiosInstance) (url : jsstring) (data : Body) : Request :=
  {| instance := api; method := POST; url := url; data := Some data |}.

Definition get (api : AxiosInstance) (url : jsstring) : Request :=
  {| instance := api; method := GET; url := url; data := None |}.

End Axios.

Module contentApi.

Definition request (api : AxiosInstance) (prompt : jsstring) (file : option jsstring) : Request :=
  Axios.post api (JS.lit "/api/v1/content/generate") (GenerateBody prompt file).

Definition generate {S} (w : World) (api : AxiosInstance)
    (prompt : jsstring) (file : option jsstring) : Handler S Api.GenerateResponse :=
  await (Http (request api prompt file)) (generate_reply w (request api prompt file)).

End contentApi.

Module trendsApi.

Definition request (api : AxiosInstance) : Request :=
  Axios.get api (JS.lit "/api/v1/trends").

Definition getTrends {S} (w : World) (api : AxiosInstance) : Handler S Api.TrendsResponse :=
  await (Http (request api)) (trends_reply w (request api)).

End trendsApi.

Module analysisApi.

Definition request (api : AxiosInstance) (content : jsstring) : Request :=
  Axios.post api (JS.lit "/api/v1/analysis") (AnalyzeBody content).

Definition analyze {S} (w : World) (api : AxiosInstance)
    (content : jsstring) : Handler S Api.AnalyzeResponse :=
  await (Http (request api content)) (analyze_reply w (request api content)).

End analysisApi.

(** The three operations an adapter module may export. *)
Inductive Operation : Type := OpGenerate | OpGetTrends | OpAnalyze.

(** src/Frontend/lib/api.ts: the base URL is a constant; the module exports
    [contentApi], [trendsApi] and [analysisApi]. *)
Module FrontendLibApi.

Definition API_BASE_URL : jsstring := JS.lit "http://localhost:8000".

Definition api : AxiosInstance := Axios.create API_BASE_URL.

(** The request an exported operation sends, for given arguments. *)
Definition request_of (op : Operation) (text : jsstring) (file : option jsstring) : option Request :=
  match op with
  | OpGenerate => Some (contentApi.request api text file)
  | OpGetTrends => Some (trendsApi.request api)
  | OpAnalyze => Some (analysisApi.request api text)
  end.

End FrontendLibApi.

(** src/unnamed/part_002: the base URL is read from the environment with a
    fallback; the module exports [contentApi] only. *)
Module EnvApi.

Definition NEXT_PUBLIC_API_BASE_URL : jsstring := JS.lit "NEXT_PUBLIC_API_BASE_URL".

(** [process.env.NEXT_PUBLIC_API_BASE_URL ?? "http://localhost:8000"] *)
Definition API_BASE_URL (process_env : gmap (list N) (list N)) : jsstring :=
  match process_env !! NEXT_PUBLIC_API_BASE_URL with
  | Some v => v
  | None => JS.lit "http://localhost:8000"
  end.

Definition api (process_env : gmap (list N) (list N)) : AxiosInstance :=
  Axios.create (API_BASE_URL process_env).

Definition request_of (process_env : gmap (list N) (list N))
    (op : Operation) (text : jsstring) (file : option jsstring) : option Request :=
  match op with
  | OpGenerate => Some (contentApi.request (api process_env) text file)
  | _ => None
  end.

End EnvApi.

(** ** The generation view (content-generator.tsx) *)

Module ContentGenerator.

Record State : Type := mkState {
  prompt : jsstring;
  file : option File;
  generatedContent : jsstring;
  imageUrl : option jsstring;
  isLoading : bool
}.

Definition initial : State :=
  {| prompt := []; file := None; generatedContent := []; imageUrl := None;
     isLoading := false |}.

Definition setPrompt (v : jsstring) (s : State) : State :=
  {| prompt := v; file := file s; generatedContent := generatedContent s;
     imageUrl := imageUrl s; isLoading := isLoading s |}.

Definition setFile (v : option File) (s : State) : State :=
  {| prompt := prompt s; file := v; generatedContent := generatedContent s;
     imageUrl := imageUrl s; isLoading := isLoading s |}.

Definition setGeneratedContent (v : jsstring) (s : State) : State :=
  {| prompt := prompt s; file := file s; generatedContent := v;
     imageUrl := imageUrl s; isLoading := isLoading s |}.

Definition setImageUrl (v : option jsstring) (s : State) : State :=
  {| prompt := prompt s; file := file s; generatedContent := generatedContent s;
     imageUrl := v; isLoading := isLoading s |}.

Definition setIsLoading (v : bool) (s : State) : State :=
  {| prompt := prompt s; file := file s; generatedContent := generatedContent s;
     imageUrl := imageUrl s; isLoading := v |}.

(** [event.target.files]: the file list of the input element, or null. *)
Record ChangeEvent : Type := mkChangeEvent {
  target_files : option (list File)
}.

Definition allowedTypes : list jsstring :=
  [JS.lit "text/csv"; JS.lit "application/pdf"; JS.lit "application/vnd.ms-excel"].

Definition destructive : option jsstring := Some (JS.lit "destructive").

Definition toast_too_large : Toast :=
  {| title := JS.lit "File too large";
     description := JS.lit "Please select a file smaller than 5MB";
     variant := destructive |}.

Definition toast_invalid_type : Toast :=
  {| title := JS.lit "Invalid file type";
     description := JS.lit "Please select a CSV or PDF file";
     variant := destructive |}.

(** [event.target.files?.[0]] *)
Definition selectedFile (event : ChangeEvent) : option File :=
  match target_files event with
  | Some files => head files
  | None => None
  end.

Definition handleFileUpload (event : ChangeEvent) : Handler State unit :=
  match selectedFile event with
  | Some selectedFile =>
      if 5 * 1024 * 1024 <? size selectedFile then
        toast toast_too_large
      else if negb (JS.array_includes allowedTypes (type selectedFile)) then
        toast toast_invalid_type
      else
        setState (setFile (Some selectedFile))
  | None => mret tt
  end.

Definition fileToBase64 (w : World) (file : File) : Handler State jsstring :=
  await (FileRead file)
    (if reader_loads w file
     then Fulfilled (DataURL.readAsDataURL file)
     else Rejected ThrownOther).

Definition toast_prompt_required : Toast :=
  {| title := JS.lit "Prompt required";
     description := JS.lit "Please enter a prompt to generate content";
     variant := destructive |}.

Definition toast_generated : Toast :=
  {| title := JS.lit "Content generated successfully";
     description := JS.lit "Your marketing content has been created";
     variant := None |}.

Definition msg_cannot_connect : jsstring :=
  JS.lit "Cannot connect to backend. Make sure FastAPI server is running on localhost:8000".

Definition msg_generic : jsstring :=
  JS.lit "Failed to generate content. Please try again.".

Definition isNetworkError (error : Thrown) : bool :=
  match error with
  | ThrownError message =>
      JS.str_eqb message (JS.lit "Network Error")
      || JS.includes message (JS.lit "ECONNREFUSED")
  | ThrownOther => false
  end.

Definition toast_generation_failed (error : Thrown) : Toast :=
  {| title := JS.lit "Generation failed";
     description := if isNetworkError error then msg_cannot_connect else msg_generic;
     variant := destructive |}.

(** The [try] block of [handleGenerate], for the state [c] the handler
    closes over. *)
Definition handleGenerate_try (w : World) (api : AxiosInstance) (c : State) : Handler State unit :=
  fileData ← match file c with
             | Some f => d ← fileToBase64 w f; mret (Some d)
             | None => mret None
             end;
  response ← contentApi.generate w api (prompt c) fileData;
  setState (setGeneratedContent (Api.content response));;
  setState (setImageUrl (Api.image_url response));;
  toast toast_generated.

Definition handleGenerate_catch (error : Thrown) : Handler State unit :=
  console_error (JS.lit "[v0] Content generation error:") error;;
  toast (toast_generation_failed error).

Definition handleGenerate (w : World) (api : AxiosInstance) : Handler State unit :=
  c ← closure;
  if negb (JS.truthy (JS.trim (prompt c))) then
    toast toast_prompt_required
  else
    setState (setIsLoading true);;
    try_catch_finally
      (handleGenerate_try w api c)
      handleGenerate_catch
      (setState (setIsLoading false)).

(** *** What is on screen *)

Record Img : Type := mkImg {
  src : jsstring;
  alt : jsstring;
  style_display : option jsstring
}.

(** The [onError] handler of the image: [e.currentTarget.style.display = "none"]. *)
Definition img_onError (e : Img) : Img :=
  {| src := src e; alt := alt e; style_display := Some (JS.lit "none") |}.

Definition img_shown (e : Img) : bool :=
  negb (bool_decide (style_display e = Some (JS.lit "none"))).

Inductive OutputPanel : Type :=
| Spinner
| Generated (text : jsstring) (image : option Img)
| Placeholder.

Record View : Type := mkView {
  prompt_value : jsstring;
  file_label : jsstring;
  remove_file_button : bool;
  generate_disabled : bool;
  generate_label : jsstring;
  output : OutputPanel
}.

Definition render_output (s : State) : OutputPanel :=
  if isLoading s then Spinner
  else if JS.truthy (generatedContent s) then
    Generated (generatedContent s)
      (match imageUrl s with
       | Some u =>
           if JS.truthy u then
             Some {| src := if JS.truthy u then u else JS.lit "/placeholder.svg";
                     alt := JS.lit "Generated content visual";
                     style_display := None |}
           else None
       | None => None
       end)
  else Placeholder.

Definition render (s : State) : View :=
  {| prompt_value := prompt s;
     file_label := match file s with
                   | Some f => name f
                   | None => JS.lit "Drop CSV/PDF files here or click to upload"
                   end;
     remove_file_button := bool_decide (is_Some (file s));
     generate_disabled := isLoading s;
     generate_label := if isLoading s then JS.lit "Generating..." else JS.lit "Generate";
     output := render_output s |}.

(** *** The component as a transition system *)

Inductive UserEvent : Type :=
| ChangePrompt (value : jsstring)
| ChangeFile (event : ChangeEvent)
| ClickRemoveFile
| ClickGenerate.

Definition dispatch (w : World) (api : AxiosInstance) (ev : UserEvent) : Handler State unit :=
  match ev with
  | ChangePrompt value => setState (setPrompt value)
  | ChangeFile event => handleFileUpload event
  | ClickRemoveFile => setState (setFile None)
  | ClickGenerate => handleGenerate w api
  end.

(** A session: events handled one after the other, each against the world
    as it is at that moment. *)
Fixpoint session (api : AxiosInstance) (evs : list (World * UserEvent)) (s : State)
    : State * list Effect :=
  match evs with
  | [] => (s, [])
  | (w, ev) :: rest =>
      match dispatch w api ev s with
      | (_, s1, e1) =>
          match session api rest s1 with
          | (s2, e2) => (s2, e1 ++ e2)
          end
      end
  end.

Definition file_valid (f : File) : bool :=
  (size f <=? 5 * 1024 * 1024) && JS.array_includes allowedTypes (type f).

(** The data URL sent along with the prompt, when the file read succeeds. *)
Definition fileData (s : State) : option jsstring :=
  DataURL.readAsDataURL <$> file s.

Definition reads (s : State) : list Effect :=
  match file s with
  | Some f => [FileRead f]
  | None => []
  end.

(** An effect that involves a file involves one that passed validation:
    a file handed to the reader, or a data URL in a request body. *)
Definition effect_valid (e : Effect) : Prop :=
  match e with
  | FileRead f => file_valid f = true
  | Http r =>
      match data r with
      | Some (GenerateBody _ (Some d)) =>
          ∃ f, file_valid f = true ∧ d = DataURL.readAsDataURL f
      | _ => True
      end
  | _ => True
  end.

Definition stored_file_valid (s : State) : Prop :=
  ∀ f, file s = Some f → file_valid f = true.

End ContentGenerator.

(** ** The trends view (trends-viewer.tsx) *)

Module TrendsViewer.

Record State : Type := mkState {
  trends : list jsstring;
  isLoading : bool
}.

Definition initial : State := {| trends := []; isLoading := false |}.

Definition setTrends (v : list jsstring) (s : State) : State :=
  {| trends := v; isLoading := isLoading s |}.

Definition setIsLoading (v : bool) (s : State) : State :=
  {| trends := trends s; isLoading := v |}.

Definition toast_updated (n : nat) : Toast :=
  {| title := JS.lit "Trends updated";
     description := JS.lit "Loaded " ++ JS.length_toString n ++ JS.lit " marketing trends";
     variant := None |}.

Definition toast_failed : Toast :=
  {| title := JS.lit "Failed to fetch trends";
     description := JS.lit "Unable to load marketing trends. Please try again.";
     variant := Some (JS.lit "destructive") |}.

Definition fetchTrends_try (w : World) (api : AxiosInstance) : Handler State unit :=
  response ← trendsApi.getTrends w api;
  setState (setTrends (Api.trends response));;
  toast (toast_updated (length (Api.trends response))).

Definition fetchTrends_catch (error : Thrown) : Handler State unit :=
  console_error (JS.lit "[v0] Trends fetch error:") error;;
  toast toast_failed.

Definition fetchTrends (w : World) (api : AxiosInstance) : Handler State unit :=
  setState (setIsLoading true);;
  try_catch_finally
    (fetchTrends_try w api)
    fetchTrends_catch
    (setState (setIsLoading false)).

Record TrendCard : Type := mkCard {
  key : nat;
  card_title : jsstring;
  card_text : jsstring
}.

Inductive Body : Type :=
| Spinner
| Grid (cards : list TrendCard)
| NoTrends (message : jsstring).

Definition render_body (s : State) : Body :=
  if isLoading s then Spinner
  else if 0 <? N.of_nat (length (trends s)) then
    Grid (imap (λ index trend,
                  {| key := index; card_title := trend;
                     card_text := JS.lit "Trending in marketing and content creation" |})
               (trends s))
  else NoTrends (JS.lit "No trends available. Click refresh to load trends.").

End TrendsViewer.

(** ** The sentiment view (sentiment-analyzer.tsx) *)

Module SentimentAnalyzer.

Record State : Type := mkState {
  content : jsstring;
  sentiment : option float;
  sentimentLabel : option jsstring;
  isLoading : bool
}.

Definition initial : State :=
  {| content := []; sentiment := None; sentimentLabel := None; isLoading := false |}.

Definition setContent (v : jsstring) (s : State) : State :=
  {| content := v; sentiment := sentiment s; sentimentLabel := sentimentLabel s;
     isLoading := isLoading s |}.

Definition setSentiment (v : option float) (s : State) : State :=
  {| content := content s; sentiment := v; sentimentLabel := sentimentLabel s;
     isLoading := isLoading s |}.

Definition setSentimentLabel (v : option jsstring) (s : State) : State :=
  {| content := content s; sentiment := sentiment s; sentimentLabel := v;
     isLoading := isLoading s |}.

Definition setIsLoading (v : bool) (s : State) : State :=
  {| content := content s; sentiment := sentiment s; sentimentLabel := sentimentLabel s;
     isLoading := v |}.

Definition toast_content_required : Toast :=
  {| title := JS.lit "Content required";
     description := JS.lit "Please enter content to analyze";
     variant := Some (JS.lit "destructive") |}.

Definition toast_complete (label : jsstring) : Toast :=
  {| title := JS.lit "Analysis complete";
     description := JS.lit "Content sentiment: " ++ label;
     variant := None |}.

Definition toast_failed : Toast :=
  {| title := JS.lit "Analysis failed";
     description := JS.lit "Failed to analyze sentiment. Please try again.";
     variant := Some (JS.lit "destructive") |}.

Definition handleAnalyze_try (w : World) (api : AxiosInstance) (c : State) : Handler State unit :=
  response ← analysisApi.analyze w api (content c);
  setState (setSentiment (Some (Api.sentiment response)));;
  setState (setSentimentLabel (Some (Api.sentiment_label response)));;
  toast (toast_complete (Api.sentiment_label response)).

Definition handleAnalyze_catch (error : Thrown) : Handler State unit :=
  console_error (JS.lit "[v0] Sentiment analysis error:") error;;
  toast toast_failed.

Definition handleAnalyze (w : World) (api : AxiosInstance) : Handler State unit :=
  c ← closure;
  if negb (JS.truthy (JS.trim (content c))) then
    toast toast_content_required
  else
    setState (setIsLoading true);;
    try_catch_finally
      (handleAnalyze_try w api c)
      handleAnalyze_catch
      (setState (setIsLoading false)).

Definition getSentimentColor (label : option jsstring) : jsstring :=
  if bool_decide (label = Some (JS.lit "positive")) then JS.lit "bg-green-500 text-white"
  else if bool_decide (label = Some (JS.lit "negative")) then JS.lit "bg-red-500 text-white"
  else if bool_decide (label = Some (JS.lit "neutral")) then JS.lit "bg-gray-500 text-white"
  else JS.lit "bg-gray-500 text-white".

Definition getSentimentProgress (score : option float) : float :=
  match score with
  | None => 50
  | Some score => ((score + 1) / 2) * 100
  end.

Record Analysis : Type := mkAnalysis {
  badge_class : jsstring;
  badge_text : jsstring;
  score_text : jsstring;
  bar_class : jsstring;
  bar_width : jsstring;
  tone_text : jsstring
}.

Inductive ResultsPanel : Type :=
| Spinner
| Results (a : Analysis)
| Placeholder.

Section Render.

(** Conversions of the platform that the view only passes through: ToString
    of a Number, [Number.prototype.toFixed(3)] and
    [String.prototype.toUpperCase]. *)
Variable Number_toString : float → jsstring.
Variable toFixed3 : float → jsstring.
Variable toUpperCase : jsstring → jsstring.

Definition bar_color (label : jsstring) : jsstring :=
  if JS.str_eqb label (JS.lit "positive") then JS.lit "bg-green-500"
  else if JS.str_eqb label (JS.lit "negative") then JS.lit "bg-red-500"
  else JS.lit "bg-gray-500".

Definition render_results (s : State) : ResultsPanel :=
  if isLoading s then Spinner
  else
    match sentiment s, sentimentLabel s with
    | Some score, Some label =>
        if JS.truthy label then
          Results
            {| badge_class := getSentimentColor (Some label);
               badge_text := toUpperCase (take 1 label) ++ drop 1 label;
               score_text := toFixed3 score;
               bar_class := bar_color label;
               bar_width := Number_toString (getSentimentProgress (Some score)) ++ JS.lit "%";
               tone_text := label |}
        else Placeholder
    | _, _ => Placeholder
    end.

End Render.

End SentimentAnalyzer.

(** ** The generate call on an unchecked response body

    [contentApi.generate] returns [response.data] as it comes: the declared
    [GenerateResponse] is not checked at run time.  This module follows
    [handleGenerate] on whatever a 2xx reply carries. *)

Module Unchecked.

(** A property value, as far as the view tells values apart. *)
Inductive Value : Type :=
| VUndefined
| VNull
| VString (s : jsstring)
| VOther.

(** [response.data] of a 2xx reply: the JSON literal null, a JSON object, or
    anything else (a string, also the raw text of a body that is not JSON, a
    number, a boolean, an array), on which [content] and [image_url] are not
    defined. *)
Inductive Data : Type :=
| DNull
| DObject (props : gmap (list N) Value)
| DOther.

(** The message of the TypeError of a property read on null (as V8 words
    it). *)
Definition typeError_message (key : jsstring) : jsstring :=
  JS.lit "Cannot read properties of null (reading '" ++ key ++ JS.lit "')".

(** [data.key] *)
Definition get (data : Data) (key : jsstring) : Settled Value :=
  match data with
  | DNull => Rejected (ThrownError (typeError_message key))
  | DObject props =>
      match props !! key with
      | Some v => Fulfilled v
      | None => Fulfilled VUndefined
      end
  | DOther => Fulfilled VUndefined
  end.

Record World : Type := mkWorld {
  reader_loads : File → bool;
  generate_reply : Request → Settled Data
}.

Record State : Type := mkState {
  prompt : jsstring;
  file : option File;
  generatedContent : Value;
  imageUrl : Value;
  isLoading : bool
}.

Definition setGeneratedContent (v : Value) (s : State) : State :=
  {| prompt := prompt s; file := file s; generatedContent := v;
     imageUrl := imageUrl s; isLoading := isLoading s |}.

Definition setImageUrl (v : Value) (s : State) : State :=
  {| prompt := prompt s; file := file s; generatedContent := generatedContent s;
     imageUrl := v; isLoading := isLoading s |}.

Definition setIsLoading (v : bool) (s : State) : State :=
  {| prompt := prompt s; file := file s; generatedContent := generatedContent s;
     imageUrl := imageUrl s; isLoading := v |}.

Definition fileToBase64 (w : World) (file : File) : Handler State jsstring :=
  await (FileRead file)
    (if reader_loads w file
     then Fulfilled (DataURL.readAsDataURL file)
     else Rejected ThrownOther).

Definition generate (w : World) (api : AxiosInstance)
    (prompt : jsstring) (file : option jsstring) : Handler State Data :=
  await (Http (contentApi.request api prompt file))
    (generate_reply w (contentApi.request api prompt file)).

(** Evaluating an expression that may throw. *)
Definition eval {A} (r : Settled A) : Handler State A := λ s, (r, s, []).

Definition handleGenerate_try (w : World) (api : AxiosInstance) (c : State) : Handler State unit :=
  fileData ← match file c with
             | Some f => d ← fileToBase64 w f; mret (Some d)
             | None => mret None
             end;
  response ← generate w api (prompt c) fileData;
  content ← eval (get response (JS.lit "content"));
  setState (setGeneratedContent content);;
  image_url ← eval (get response (JS.lit "image_url"));
  setState (setImageUrl image_url);;
  toast ContentGenerator.toast_generated.

Definition handleGenerate_catch (error : Thrown) : Handler State unit :=
  console_error (JS.lit "[v0] Content generation error:") error;;
  toast (ContentGenerator.toast_generation_failed error).

Definition handleGenerate (w : World) (api : AxiosInstance) : Handler State unit :=
  c ← closure;
  if negb (JS.truthy (JS.trim (prompt c))) then
    toast ContentGenerator.toast_prompt_required
  else
    setState (setIsLoading true);;
    try_catch_finally
      (handleGenerate_try w api c)
      handleGenerate_catch
      (setState (setIsLoading false)).

(** The reply bodies that have the declared shape, and what they declare. *)
Definition well_formed (d : Data) : option Api.GenerateResponse :=
  match d with
  | DObject props =>
      match props !! JS.lit "content", props !! JS.lit "image_url" with
      | Some (VString c), Some (VString u) =>
          Some {| Api.content := c; Api.image_url := Some u |}
      | Some (VString c), Some VNull =>
          Some {| Api.content := c; Api.image_url := None |}
      | _, _ => None
      end
  | _ => None
  end.

(** The typed view state, seen as a state of this module. *)
Definition of_typed (s : ContentGenerator.State) : State :=
  {| prompt := ContentGenerator.prompt s;
     file := ContentGenerator.file s;
     generatedContent := VString (ContentGenerator.generatedContent s);
     imageUrl := match ContentGenerator.imageUrl s with
                 | Some u => VString u
                 | None => VNull
                 end;
     isLoading := ContentGenerator.isLoading s |}.

End Unchecked.

(** ** The header (header.tsx) *)

Module Header.

(** The theme button: [setTheme(theme === "dark" ? "light" : "dark")], for
    the current [theme : string | undefined]. *)
Definition toggleTheme (theme : option jsstring) : option jsstring :=
  Some (if bool_decide (theme = Some (JS.lit "dark"))
        then JS.lit "light" else JS.lit "dark").

End Header.

(** ** Reading a trace *)

Definition isHttp (e : Effect) : bool :=
  match e with
  | Http _ => true
  | _ => false
  end.

Definition isFileRead (e : Effect) : bool :=
  match e with
  | FileRead _ => true
  | _ => false
  end.

Definition requests (trace : list Effect) : list Effect :=
  filter (λ e, isHttp e = true) trace.

Definition toasts (trace : list Effect) : list Effect :=
  filter (λ e, isToast e = true) trace.

Definition isClickGenerate (ev : ContentGenerator.UserEvent) : bool :=
  match ev with
  | ContentGenerator.ClickGenerate => true
  | _ => false
  end.

(** The text and image on display come from one and the same fulfilled
    response, or nothing was generated yet: the session [evs] has a click on
    Generate, in some world [w] and after some events [pre], whose handling
    sent a request that [w] answered with a response carrying both. *)
Definition shown_from (api : AxiosInstance)
    (evs : list (World * ContentGenerator.UserEvent))
    (s : ContentGenerator.State) : Prop :=
  (ContentGenerator.generatedContent s = [] ∧ ContentGenerator.imageUrl s = None)
  ∨ ∃ pre w post response,
      evs = pre ++ (w, ContentGenerator.ClickGenerate) :: post
      ∧ Http (contentApi.request api
                (ContentGenerator.prompt
                   (fst (ContentGenerator.session api pre ContentGenerator.initial)))
                (ContentGenerator.fileData
                   (fst (ContentGenerator.session api pre ContentGenerator.initial))))
        ∈ run_effects
            (ContentGenerator.handleGenerate w api
               (fst (ContentGenerator.session api pre ContentGenerator.initial)))
      ∧ generate_reply w
          (contentApi.request api
             (ContentGenerator.prompt
                (fst (ContentGenerator.session api pre ContentGenerator.initial)))
             (ContentGenerator.fileData
                (fst (ContentGenerator.session api pre ContentGenerator.initial))))
        = Fulfilled response
      ∧ ContentGenerator.generatedContent s = Api.content response
      ∧ ContentGenerator.imageUrl s = Api.image_url response.

(** ** Sample inputs *)

Module Sample.

Definition png : File :=
  {| name := JS.lit "logo.png"; size := 2048; type := JS.lit "image/png";
     bytes := [x89; x50; x4e; x47]%byte |}.

Definition huge_pdf : File :=
  {| name := JS.lit "catalogue.pdf"; size := 6 * 1024 * 1024;
     type := JS.lit "application/pdf"; bytes := [] |}.

Definition csv : File :=
  {| name := JS.lit "leads.csv"; size := 8; type := JS.lit "text/csv";
     bytes := [x61; x2c; x62; x0a; x31; x2c; x32; x0a]%byte |}.

Definition select (f : File) : ContentGenerator.ChangeEvent :=
  {| ContentGenerator.target_files := Some [f] |}.

Definition network_error : Thrown := ThrownError (JS.lit "Network Error").

Definition server_error : Thrown :=
  ThrownError (JS.lit "Request failed with status code 500").

(** A backend that cannot be reached. *)
Definition world_down : World :=
  {| reader_loads := λ _, true;
     generate_reply := λ _, Rejected network_error;
     trends_reply := λ _, Rejected network_error;
     analyze_reply := λ _, Rejected network_error |}.

(** A backend that answers every request with the given payloads. *)
Definition world_up (g : Api.GenerateResponse) (t : Api.TrendsResponse)
    (a : Api.AnalyzeResponse) : World :=
  {| reader_loads := λ _, true;
     generate_reply := λ _, Fulfilled g;
     trends_reply := λ _, Fulfilled t;
     analyze_reply := λ _, Fulfilled a |}.

Definition post_with_image : Api.GenerateResponse :=
  {| Api.content := JS.lit "Run further.";
     Api.image_url := Some (JS.lit "https://img.example/run.png") |}.

Definition post_with_empty_image_url : Api.GenerateResponse :=
  {| Api.content := JS.lit "Run further."; Api.image_url := Some [] |}.

Definition empty_post_with_image : Api.GenerateResponse :=
  {| Api.content := []; Api.image_url := Some (JS.lit "https://img.example/run.png") |}.

Definition two_trends : Api.TrendsResponse :=
  {| Api.trends := [JS.lit "Short video"; JS.lit "AI copy"] |}.

Definition positive : Api.AnalyzeResponse :=
  {| Api.sentiment := 0.8; Api.sentiment_label := JS.lit "positive" |}.

Definition typed_prompt : ContentGenerator.State :=
  ContentGenerator.setPrompt (JS.lit "Create a Twitter post for a fitness app")
    ContentGenerator.initial.

Definition blank_prompt : ContentGenerator.State :=
  ContentGenerator.setPrompt [0x20; 0x09; 0x00A0; 0x000A] ContentGenerator.initial.

Definition typed_content : SentimentAnalyzer.State :=
  SentimentAnalyzer.setContent (JS.lit "Boost your fitness with our amazing new app!")
    SentimentAnalyzer.initial.

Definition blank_content : SentimentAnalyzer.State :=
  SentimentAnalyzer.setContent [0x3000; 0x20] SentimentAnalyzer.initial.

Definition env_override : gmap (list N) (list N) :=
  {[ EnvApi.NEXT_PUBLIC_API_BASE_URL := JS.lit "https://api.example.com" ]}.

(** ToString of a Number, for the numbers that are non-negative integers
    below 2^53 (decimal digits); other numbers are not printed here. *)
Definition Number_toString (x : float) : jsstring :=
  match Prim2SF x with
  | S754_zero _ => JS.lit "0"
  | S754_finite false m e =>
      match e with
      | Z0 => JS.lit (NilEmpty.string_of_uint (Pos.to_uint m))
      | Zpos p => JS.lit (NilEmpty.string_of_uint (Pos.to_uint (Pos.shiftl m (Npos p))))
      | Zneg p =>
          if (N.land (Npos m) (N.ones (Npos p)) =? 0)
          then JS.lit (NilEmpty.string_of_uint (N.to_uint (N.shiftr (Npos m) (Npos p))))
          else JS.lit "?"
      end
  | _ => JS.lit "?"
  end.

End Sample.

Module SampleUnchecked.

Definition typed_prompt : Unchecked.State :=
  Unchecked.of_typed Sample.typed_prompt.

(** A backend that cannot be reached. *)
Definition world_down : Unchecked.World :=
  {| Unchecked.reader_loads := λ _, true;
     Unchecked.generate_reply := λ _, Rejected Sample.network_error |}.

(** A backend (or a proxy in front of it) that answers 200 with the given
    body. *)
Definition world_200 (body : Unchecked.Data) : Unchecked.World :=
  {| Unchecked.reader_loads := λ _, true;
     Unchecked.generate_reply := λ _, Fulfilled body |}.

(** The body [{"detail": "..."}]: an object without [content] and
    [image_url]. *)
Definition detail_only : Unchecked.Data :=
  Unchecked.DObject {[ JS.lit "detail" := Unchecked.VString (JS.lit "quota exceeded") ]}.

End SampleUnchecked.

(** * Properties *)

(** ** Strings *)

Lemma trimStart_nil_iff (s : jsstring) :
  JS.trimStart s = [] ↔ forallb JS.isWhiteSpace s = true.
Proof.
  induction s as [|c s IH]; simpl; [tauto|].
  destruct (JS.isWhiteSpace c); simpl; [exact IH|].
  split; discriminate.
Qed.

Lemma trimStart_suffix (s : jsstring) :
  ∃ p, s = p ++ JS.trimStart s ∧ forallb JS.isWhiteSpace p = true.
Proof.
  induction s as [|c s (p & Hp & Hws)]; simpl.
  - by exists [].
  - destruct (JS.isWhiteSpace c) eqn:Hc.
    + exists (c :: p). simpl. rewrite Hc, Hws. split; [by f_equal|done].
    + by exists [].
Qed.

Lemma forallb_rev {A} (f : A → bool) (l : list A) :
  forallb f (rev l) = forallb f l.
Proof.
  induction l as [|a l IH]; simpl; [done|].
  rewrite forallb_app, IH. simpl. rewrite andb_true_r. apply andb_comm.
Qed.

(** [trim] leaves nothing exactly when the string is all white space. *)
Lemma trim_nil_iff (s : jsstring) :
  JS.trim s = [] ↔ forallb JS.isWhiteSpace s = true.
Proof.
  unfold JS.trim, JS.trimEnd. split.
  - intros H. apply (f_equal (@rev N)) in H. rewrite rev_involutive in H. simpl in H.
    apply trimStart_nil_iff in H. rewrite forallb_rev in H.
    destruct (trimStart_suffix s) as (p & Hp & Hws).
    rewrite Hp, forallb_app, Hws, H. done.
  - intros H. apply trimStart_nil_iff in H. rewrite H. done.
Qed.

Lemma truthy_trim_blank (s : jsstring) :
  forallb JS.isWhiteSpace s = true → JS.truthy (JS.trim s) = false.
Proof. intros H. apply trim_nil_iff in H. by rewrite H. Qed.

Lemma startsWith_spec (s p : jsstring) :
  JS.startsWith s p = true ↔ ∃ b, s = p ++ b.
Proof.
  revert s. induction p as [|a p IH]; intros s.
  - destruct s; simpl; (split; [intros _; eexists; reflexivity|reflexivity]).
  - destruct s as [|c s]; simpl.
    + split; [discriminate|]. intros (b & Hb). discriminate Hb.
    + rewrite andb_true_iff, N.eqb_eq, IH. split.
      * intros (-> & b & ->). by exists b.
      * intros (b & Hb). injection Hb as -> ->. split; [done|by exists b].
Qed.

Lemma includes_unfold (s sub : jsstring) :
  JS.includes s sub =
  JS.startsWith s sub || match s with [] => false | _ :: rest => JS.includes rest sub end.
Proof. destruct s; reflexivity. Qed.

Lemma includes_spec (s sub : jsstring) :
  JS.includes s sub = true ↔ ∃ a b, s = a ++ sub ++ b.
Proof.
  induction s as [|c s IH]; rewrite includes_unfold.
  - rewrite orb_false_r, startsWith_spec. split.
    + intros (b & Hb). by exists [], b.
    + intros (a & b & Hab). destruct a; [by exists b|discriminate Hab].
  - rewrite orb_true_iff, startsWith_spec, IH. split.
    + intros [(b & Hb)|(a & b & Hab)].
      * by exists [], b.
      * exists (c :: a), b. by rewrite Hab.
    + intros (a & b & Hab). destruct a as [|c' a].
      * left. by exists b.
      * right. injection Hab as -> ->. by exists a, b.
Qed.

Lemma array_includes_spec (arr : list jsstring) (x : jsstring) :
  JS.array_includes arr x = true ↔ x ∈ arr.
Proof. unfold JS.array_includes. apply bool_decide_eq_true. Qed.

(** ** Runs of the handlers *)

Ltac unfold_handler :=
  unfold mbind, handler_bind, mret, handler_ret, closure, setState, toast,
    console_error, emit, await, try_catch_finally,
    run_state, run_effects, run_result in *.

Section GenerationRuns.

Import ContentGenerator.

Context (w : World) (api : AxiosInstance).

Lemma handleGenerate_blank (s : State) :
  JS.truthy (JS.trim (prompt s)) = false →
  handleGenerate w api s = (Fulfilled tt, s, [Toasted toast_prompt_required]).
Proof.
  intros H. unfold handleGenerate. unfold_handler. by rewrite H.
Qed.

(** The [try] block, case by case. *)
Lemma handleGenerate_try_run (c s : State) :
  handleGenerate_try w api c s =
  match file c with
  | Some f =>
      if reader_loads w f then
        let r := contentApi.request api (prompt c) (Some (DataURL.readAsDataURL f)) in
        match generate_reply w r with
        | Fulfilled response =>
            (Fulfilled tt,
             setImageUrl (Api.image_url response)
               (setGeneratedContent (Api.content response) s),
             [FileRead f; Http r; Toasted toast_generated])
        | Rejected error => (Rejected error, s, [FileRead f; Http r])
        end
      else (Rejected ThrownOther, s, [FileRead f])
  | None =>
      let r := contentApi.request api (prompt c) None in
      match generate_reply w r with
      | Fulfilled response =>
          (Fulfilled tt,
           setImageUrl (Api.image_url response)
             (setGeneratedContent (Api.content response) s),
           [Http r; Toasted toast_generated])
      | Rejected error => (Rejected error, s, [Http r])
      end
  end.
Proof.
  unfold handleGenerate_try, fileToBase64, contentApi.generate. unfold_handler.
  destruct (file c) as [f|]; [destruct (reader_loads w f)|]; simpl;
    try reflexivity; destruct (generate_reply w _); reflexivity.
Qed.

(** A rejected [try] block has changed nothing and shown no toast. *)
Lemma handleGenerate_try_rejected (c s : State) (error : Thrown) :
  run_result (handleGenerate_try w api c s) = Rejected error →
  run_state (handleGenerate_try w api c s) = s
  ∧ filter (λ e, isToast e = true) (run_effects (handleGenerate_try w api c s)) = [].
Proof.
  rewrite handleGenerate_try_run. unfold run_result, run_state, run_effects.
  destruct (file c) as [f|]; [destruct (reader_loads w f)|]; simpl;
    try destruct (generate_reply w _); simpl; intros H; try discriminate H; done.
Qed.

Lemma handleGenerate_failed (s : State) (error : Thrown) :
  JS.truthy (JS.trim (prompt s)) = true →
  run_result (handleGenerate_try w api s (setIsLoading true s)) = Rejected error →
  handleGenerate w api s =
  (Fulfilled tt, setIsLoading false s,
   run_effects (handleGenerate_try w api s (setIsLoading true s))
   ++ [ConsoleError (JS.lit "[v0] Content generation error:") error;
       Toasted (toast_generation_failed error)]).
Proof.
  intros Hp Hr.
  destruct (handleGenerate_try_rejected _ _ _ Hr) as [Hs _].
  unfold handleGenerate, handleGenerate_catch. unfold_handler.
  rewrite Hp. simpl.
  destruct (handleGenerate_try w api s (setIsLoading true s)) as [[r s1] e1].
  simpl in *. subst r s1. by rewrite app_nil_r.
Qed.

Lemma handleGenerate_succeeded (s : State) (response : Api.GenerateResponse) :
  JS.truthy (JS.trim (prompt s)) = true →
  (∀ f, file s = Some f → reader_loads w f = true) →
  generate_reply w (contentApi.request api (prompt s) (fileData s)) = Fulfilled response →
  handleGenerate w api s =
  (Fulfilled tt,
   {| prompt := prompt s; file := file s;
      generatedContent := Api.content response;
      imageUrl := Api.image_url response;
      isLoading := false |},
   reads s ++ [Http (contentApi.request api (prompt s) (fileData s));
               Toasted toast_generated]).
Proof.
  intros Hp Hread Hreply.
  unfold handleGenerate. unfold_handler. rewrite Hp. simpl.
  rewrite handleGenerate_try_run. unfold fileData, reads in *.
  unfold setIsLoading, setImageUrl, setGeneratedContent. simpl.
  destruct (file s) as [f|]; simpl in *.
  - rewrite (Hread f eq_refl), Hreply. reflexivity.
  - rewrite Hreply. reflexivity.
Qed.

End GenerationRuns.

(** ** File selection *)

Section FileSelection.

Import ContentGenerator.

Lemma file_valid_spec (f : File) :
  file_valid f = true ↔ size f ≤ 5 * 1024 * 1024 ∧ type f ∈ allowedTypes.
Proof.
  unfold file_valid. rewrite andb_true_iff, N.leb_le, array_includes_spec. done.
Qed.

Lemma file_invalid_spec (f : File) :
  file_valid f = false ↔ 5 * 1024 * 1024 < size f ∨ type f ∉ allowedTypes.
Proof.
  rewrite <- not_true_iff_false, file_valid_spec. split.
  - intros H. destruct (N.ltb_spec (5 * 1024 * 1024) (size f)) as [Hlt|Hle]; [by left|].
    right. intros Hin. by apply H.
  - intros [Hlt|Hnin] [Hle Hin]; [lia|done].
Qed.

(** The three outcomes of a file selection. *)
Lemma handleFileUpload_run (event : ChangeEvent) (s : State) :
  handleFileUpload event s =
  match selectedFile event with
  | Some f =>
      if 5 * 1024 * 1024 <? size f then (Fulfilled tt, s, [Toasted toast_too_large])
      else if JS.array_includes allowedTypes (type f) then (Fulfilled tt, setFile (Some f) s, [])
      else (Fulfilled tt, s, [Toasted toast_invalid_type])
  | None => (Fulfilled tt, s, [])
  end.
Proof.
  unfold handleFileUpload. destruct (selectedFile event) as [f|]; [|done].
  destruct (5 * 1024 * 1024 <? size f); [done|].
  destruct (JS.array_includes allowedTypes (type f)); done.
Qed.

Lemma handleFileUpload_rejects (event : ChangeEvent) (f : File) (s : State) :
  selectedFile event = Some f →
  file_valid f = false →
  ∃ t, handleFileUpload event s = (Fulfilled tt, s, [Toasted t])
       ∧ (t = toast_too_large ∨ t = toast_invalid_type).
Proof.
  intros Hsel Hbad. rewrite handleFileUpload_run, Hsel.
  unfold file_valid in Hbad.
  destruct (N.ltb_spec (5 * 1024 * 1024) (size f)) as [Hlt|Hle].
  - exists toast_too_large. auto.
  - apply N.leb_le in Hle. rewrite Hle in Hbad. simpl in Hbad. rewrite Hbad.
    exists toast_invalid_type. auto.
Qed.

Lemma handleFileUpload_accepts (event : ChangeEvent) (f : File) (s : State) :
  selectedFile event = Some f →
  file_valid f = true →
  handleFileUpload event s = (Fulfilled tt, setFile (Some f) s, []).
Proof.
  intros Hsel Hok. rewrite handleFileUpload_run, Hsel.
  apply andb_true_iff in Hok as [Hle Hty]. apply N.leb_le in Hle.
  destruct (N.ltb_spec (5 * 1024 * 1024) (size f)) as [Hlt|_]; [lia|].
  by rewrite Hty.
Qed.

Lemma handleFileUpload_preserves (event : ChangeEvent) (s : State) :
  stored_file_valid s → stored_file_valid (run_state (handleFileUpload event s)).
Proof.
  intros Hinv. destruct (selectedFile event) as [f|] eqn:Hsel.
  - destruct (file_valid f) eqn:Hv.
    + rewrite (handleFileUpload_accepts _ _ _ Hsel Hv).
      intros f' Hf'. unfold run_state in Hf'. simpl in Hf'. congruence.
    + destruct (handleFileUpload_rejects _ _ s Hsel Hv) as (t & -> & _). exact Hinv.
  - rewrite handleFileUpload_run, Hsel. exact Hinv.
Qed.

Lemma handleFileUpload_effects (event : ChangeEvent) (s : State) :
  Forall effect_valid (run_effects (handleFileUpload event s)).
Proof.
  rewrite handleFileUpload_run. unfold run_effects.
  destruct (selectedFile event) as [f|]; [|by constructor].
  destruct (5 * 1024 * 1024 <? size f); [by repeat constructor|].
  destruct (JS.array_includes allowedTypes (type f)); by repeat constructor.
Qed.

Context (api : AxiosInstance).

(** [handleGenerate] never writes the stored file, and it reads and sends
    nothing but the stored file. *)
Lemma handleGenerate_file (w : World) (s : State) :
  file (run_state (handleGenerate w api s)) = file s.
Proof.
  unfold handleGenerate. unfold_handler.
  destruct (negb _); [done|]. simpl.
  rewrite handleGenerate_try_run.
  destruct (file s) as [f|] eqn:Hf; [destruct (reader_loads w f)|]; simpl;
    try destruct (generate_reply w _); simpl; done.
Qed.

Lemma handleGenerate_effects (w : World) (s : State) :
  stored_file_valid s →
  Forall effect_valid (run_effects (handleGenerate w api s)).
Proof.
  intros Hinv. unfold handleGenerate, handleGenerate_catch. unfold_handler.
  destruct (negb _); [by repeat constructor|]. simpl.
  rewrite handleGenerate_try_run.
  destruct (file s) as [f|] eqn:Hf; [destruct (reader_loads w f)|]; simpl;
    try destruct (generate_reply w _); simpl;
    repeat constructor; simpl; eauto.
Qed.

Lemma dispatch_preserves (w : World) (ev : UserEvent) (s : State) :
  stored_file_valid s →
  stored_file_valid (run_state (dispatch w api ev s))
  ∧ Forall effect_valid (run_effects (dispatch w api ev s)).
Proof.
  intros Hinv. destruct ev as [v|event| |]; simpl.
  - split; [exact Hinv|constructor].
  - split; [by apply handleFileUpload_preserves|apply handleFileUpload_effects].
  - split; [|constructor]. intros f Hf. discriminate Hf.
  - split; [|by apply handleGenerate_effects].
    intros f Hf. rewrite handleGenerate_file in Hf. by apply Hinv.
Qed.

Lemma session_valid (evs : list (World * UserEvent)) (s : State) :
  stored_file_valid s →
  stored_file_valid (session api evs s).1
  ∧ Forall effect_valid (session api evs s).2.
Proof.
  revert s. induction evs as [|[w ev] evs IH]; intros s Hinv; simpl.
  - split; [exact Hinv|constructor].
  - destruct (dispatch_preserves w ev s Hinv) as [H1 H2].
    unfold run_state, run_effects in *.
    destruct (dispatch w api ev s) as [[r s1] e1]. simpl in *.
    destruct (IH s1 H1) as [H3 H4].
    destruct (session api evs s1) as [s2 e2]. simpl in *.
    split; [exact H3|]. by apply Forall_app.
Qed.

Lemma initial_valid : stored_file_valid initial.
Proof. intros f Hf. discriminate Hf. Qed.

End FileSelection.

Section AnalysisRuns.

Import SentimentAnalyzer.

Context (w : World) (api : AxiosInstance).

Lemma handleAnalyze_blank (s : State) :
  JS.truthy (JS.trim (content s)) = false →
  handleAnalyze w api s = (Fulfilled tt, s, [Toasted toast_content_required]).
Proof.
  intros H. unfold handleAnalyze. unfold_handler. by rewrite H.
Qed.

Lemma handleAnalyze_try_run (c s : State) :
  handleAnalyze_try w api c s =
  let r := analysisApi.request api (content c) in
  match analyze_reply w r with
  | Fulfilled response =>
      (Fulfilled tt,
       setSentimentLabel (Some (Api.sentiment_label response))
         (setSentiment (Some (Api.sentiment response)) s),
       [Http r; Toasted (toast_complete (Api.sentiment_label response))])
  | Rejected error => (Rejected error, s, [Http r])
  end.
Proof.
  unfold handleAnalyze_try, analysisApi.analyze. unfold_handler. simpl.
  destruct (analyze_reply w _); reflexivity.
Qed.

Lemma handleAnalyze_failed (s : State) (error : Thrown) :
  JS.truthy (JS.trim (content s)) = true →
  analyze_reply w (analysisApi.request api (content s)) = Rejected error →
  handleAnalyze w api s =
  (Fulfilled tt, setIsLoading false s,
   [Http (analysisApi.request api (content s));
    ConsoleError (JS.lit "[v0] Sentiment analysis error:") error;
    Toasted toast_failed]).
Proof.
  intros Hc Hr. unfold handleAnalyze, handleAnalyze_catch. unfold_handler.
  rewrite Hc. simpl. rewrite handleAnalyze_try_run. simpl. rewrite Hr. reflexivity.
Qed.

Lemma handleAnalyze_succeeded (s : State) (response : Api.AnalyzeResponse) :
  JS.truthy (JS.trim (content s)) = true →
  analyze_reply w (analysisApi.request api (content s)) = Fulfilled response →
  handleAnalyze w api s =
  (Fulfilled tt,
   {| content := content s;
      sentiment := Some (Api.sentiment response);
      sentimentLabel := Some (Api.sentiment_label response);
      isLoading := false |},
   [Http (analysisApi.request api (content s));
    Toasted (toast_complete (Api.sentiment_label response))]).
Proof.
  intros Hc Hr. unfold handleAnalyze. unfold_handler.
  rewrite Hc. simpl. rewrite handleAnalyze_try_run. simpl. rewrite Hr. reflexivity.
Qed.

End AnalysisRuns.

Section TrendsRuns.

Import TrendsViewer.

Context (w : World) (api : AxiosInstance).

Lemma fetchTrends_run (s : State) :
  fetchTrends w api s =
  let r := trendsApi.request api in
  match trends_reply w r with
  | Fulfilled response =>
      (Fulfilled tt,
       {| trends := Api.trends response; isLoading := false |},
       [Http r; Toasted (toast_updated (length (Api.trends response)))])
  | Rejected error =>
      (Fulfilled tt,
       {| trends := trends s; isLoading := false |},
       [Http r; ConsoleError (JS.lit "[v0] Trends fetch error:") error;
        Toasted toast_failed])
  end.
Proof.
  unfold fetchTrends, fetchTrends_try, fetchTrends_catch, trendsApi.getTrends.
  unfold_handler. simpl.
  destruct (trends_reply w _); reflexivity.
Qed.

Lemma cards_titles (l : list jsstring) (text : jsstring) :
  card_title <$> imap (λ i t, {| key := i; card_title := t; card_text := text |}) l = l.
Proof.
  apply list_eq. intros i. rewrite list_lookup_fmap, list_lookup_imap.
  by destruct (l !! i).
Qed.

Lemma cards_keys (l : list jsstring) (text : jsstring) :
  key <$> imap (λ i t, {| key := i; card_title := t; card_text := text |}) l
  = seq 0 (length l).
Proof.
  apply list_eq. intros i. rewrite list_lookup_fmap, list_lookup_imap.
  destruct (l !! i) as [t|] eqn:Hi; simpl; symmetry.
  - apply lookup_seq. split; [done|]. by apply lookup_lt_Some in Hi.
  - apply lookup_seq_ge. by apply lookup_ge_None in Hi.
Qed.

End TrendsRuns.

(** ** Base64 *)

Section Base64Facts.

Import Base64.

Lemma value_alphabet (n : N) : n < 64 → value (alphabet n) = Some n.
Proof.
  intros Hn. unfold alphabet, value.
  repeat match goal with
         | |- context [?a <? ?b] => destruct (N.ltb_spec a b)
         | |- context [?a <=? ?b] => destruct (N.leb_spec a b)
         | |- context [?a =? ?b] => destruct (N.eqb_spec a b)
         | _ => progress simpl
         end; try lia; f_equal; lia.
Qed.

Lemma alphabet_not_pad (n : N) : (alphabet n =? pad) = false.
Proof.
  apply N.eqb_neq. unfold alphabet, pad.
  repeat match goal with
         | |- context [?a <? ?b] => destruct (N.ltb_spec a b)
         | |- context [?a =? ?b] => destruct (N.eqb_spec a b)
         end; lia.
Qed.

Ltac euclid := zify; Z.to_euclidean_division_equations; lia.

Lemma sextets_lt (a b c : N) :
  a < 256 → b < 256 → c < 256 →
  a / 4 < 64 ∧ (a mod 4) * 16 + b / 16 < 64
  ∧ (b mod 16) * 4 + c / 64 < 64 ∧ c mod 64 < 64.
Proof. intros. repeat split; euclid. Qed.

Lemma octet1_sextets (a b : N) :
  b < 256 → octet1 (a / 4) ((a mod 4) * 16 + b / 16) = a.
Proof. intros. unfold octet1. euclid. Qed.

Lemma octet2_sextets (a b c : N) :
  b < 256 → c < 256 →
  octet2 ((a mod 4) * 16 + b / 16) ((b mod 16) * 4 + c / 64) = b.
Proof.
  intros. unfold octet2.
  assert (H1 : ((a mod 4) * 16 + b / 16) mod 16 = b / 16) by euclid.
  assert (H2 : ((b mod 16) * 4 + c / 64) / 4 = b mod 16) by euclid.
  rewrite H1, H2. euclid.
Qed.

Lemma octet3_sextets (b c : N) :
  c < 256 → octet3 ((b mod 16) * 4 + c / 64) (c mod 64) = c.
Proof. intros. unfold octet3. euclid. Qed.

Lemma to_N_lt (b : byte) : Byte.to_N b < 256.
Proof. pose proof (Byte.to_N_bounded b). lia. Qed.

(** Decoding one full group of four characters. *)
Lemma decode_group (w x y z : N) (rest : jsstring) :
  w < 64 → x < 64 → y < 64 → z < 64 →
  decode (alphabet w :: alphabet x :: alphabet y :: alphabet z :: rest) =
  (b1 ← Byte.of_N (octet1 w x);
   b2 ← Byte.of_N (octet2 x y);
   b3 ← Byte.of_N (octet3 y z);
   tl ← decode rest;
   Some (b1 :: b2 :: b3 :: tl)).
Proof.
  intros Hw Hx Hy Hz. cbn [decode].
  rewrite !value_alphabet, !alphabet_not_pad by done. cbn [mbind option_bind].
  destruct (Byte.of_N (octet1 w x)); [|done]. cbn [mbind option_bind].
  rewrite ?alphabet_not_pad. done.
Qed.

Lemma list_ind3 {A} (P : list A → Prop) :
  P [] → (∀ a, P [a]) → (∀ a b, P [a; b]) →
  (∀ a b c l, P l → P (a :: b :: c :: l)) →
  ∀ l, P l.
Proof.
  intros H0 H1 H2 H3. fix IH 1.
  intros [|a [|b [|c l]]]; [exact H0|apply H1|apply H2|apply H3, IH].
Qed.

(** RFC 4648 base64: decoding inverts encoding. *)
Lemma decode_encode (bs : list byte) : decode (encode bs) = Some bs.
Proof.
  induction bs as [|a|a b|a b c l IH] using list_ind3.
  - reflexivity.
  - pose proof (to_N_lt a) as Ha.
    destruct (sextets_lt (Byte.to_N a) 0 0) as (Hw & Hx & _); [done..|].
    cbn [encode sextets decode].
    rewrite !value_alphabet by done. cbn [mbind option_bind].
    rewrite octet1_sextets, Byte.of_to_N by done. reflexivity.
  - pose proof (to_N_lt a) as Ha. pose proof (to_N_lt b) as Hb.
    destruct (sextets_lt (Byte.to_N a) (Byte.to_N b) 0) as (Hw & Hx & Hy & _); [done..|].
    cbn [encode sextets decode].
    rewrite !value_alphabet, alphabet_not_pad by done. cbn [mbind option_bind].
    rewrite octet1_sextets, Byte.of_to_N by done. cbn [mbind option_bind].
    rewrite octet2_sextets, Byte.of_to_N by done. reflexivity.
  - pose proof (to_N_lt a) as Ha. pose proof (to_N_lt b) as Hb.
    pose proof (to_N_lt c) as Hc.
    destruct (sextets_lt (Byte.to_N a) (Byte.to_N b) (Byte.to_N c))
      as (Hw & Hx & Hy & Hz); [done..|].
    cbn [encode sextets].
    rewrite decode_group by done.
    rewrite octet1_sextets, octet2_sextets, octet3_sextets by done.
    rewrite !Byte.of_to_N, IH. reflexivity.
Qed.

End Base64Facts.

(** ** Data URLs *)

Section DataURLFacts.

Import DataURL.

Lemma split_comma_app (header payload : jsstring) :
  no_comma header = true →
  split_comma (header ++ comma :: payload) = Some (header, payload).
Proof.
  induction header as [|c header IH]; simpl; intros H.
  - reflexivity.
  - apply andb_true_iff in H as [Hc Hrest].
    apply negb_true_iff in Hc. rewrite Hc, (IH Hrest). reflexivity.
Qed.

Lemma startsWith_app (p b : jsstring) : JS.startsWith (p ++ b) p = true.
Proof. apply startsWith_spec. by exists b. Qed.

Lemma endsWith_app (a suffix : jsstring) : endsWith (a ++ suffix) suffix = true.
Proof. unfold endsWith. rewrite rev_app_distr. apply startsWith_app. Qed.

(** The header the reader writes in front of the base64 text. *)
Lemma readAsDataURL_shape (f : File) :
  readAsDataURL f =
  (JS.lit "data:" ++ type f ++ JS.lit ";base64") ++ comma :: Base64.encode (bytes f).
Proof.
  unfold readAsDataURL. rewrite <- !app_assoc. do 2 f_equal.
Qed.

Lemma decode_readAsDataURL (f : File) :
  no_comma (type f) = true →
  decode (readAsDataURL f) = Some (bytes f).
Proof.
  intros Hty. unfold decode. rewrite readAsDataURL_shape, split_comma_app.
  - rewrite startsWith_app, app_assoc, endsWith_app. simpl.
    apply decode_encode.
  - unfold no_comma in *. rewrite !forallb_app, Hty. reflexivity.
Qed.

Lemma allowedTypes_no_comma (t : jsstring) :
  t ∈ ContentGenerator.allowedTypes → no_comma t = true.
Proof.
  intros H. apply list_elem_of_In in H. simpl in H.
  destruct H as [<-|[<-|[<-|[]]]]; reflexivity.
Qed.

End DataURLFacts.

Example sample_numbers :
  Sample.Number_toString 90 = JS.lit "90" ∧ Sample.Number_toString 0 = JS.lit "0"
  ∧ Sample.Number_toString 50 = JS.lit "50" ∧ Sample.Number_toString 100 = JS.lit "100".
Proof. repeat split; reflexivity. Qed.

Example base64_samples :
  Base64.encode [x4d; x61; x6e]%byte = JS.lit "TWFu"
  ∧ Base64.encode [x4d; x61]%byte = JS.lit "TWE="
  ∧ Base64.encode [x4d]%byte = JS.lit "TQ=="
  ∧ Base64.decode (JS.lit "TWE=") = Some [x4d; x61]%byte
  ∧ Base64.decode (JS.lit "TQ==") = Some [x4d]%byte
  ∧ Base64.encode [xfb; xff; xbe]%byte = JS.lit "+/++"
  ∧ DataURL.readAsDataURL Sample.csv = JS.lit "data:text/csv;base64,YSxiCjEsMgo=".
Proof. repeat split; reflexivity. Qed.

(** * The claims *)

(** C1.  A selected file that is larger than 5*1024*1024 bytes, or whose
    MIME type is not one of text/csv, application/pdf and
    application/vnd.ms-excel, is rejected by the file-selection handler with
    a single destructive toast and nothing else: the component state is
    unchanged and the handler issues no request and no file read.  Whatever
    the user does from the first render on, that file is never handed to the
    reader, and every file that is read or sent passed both checks. *)
Theorem C1_invalid_file_is_rejected_locally
    (api : AxiosInstance) (event : ContentGenerator.ChangeEvent) (f : File)
    (s : ContentGenerator.State) :
  ContentGenerator.selectedFile event = Some f →
  5 * 1024 * 1024 < size f ∨ type f ∉ ContentGenerator.allowedTypes →
  (∃ t, ContentGenerator.handleFileUpload event s = (Fulfilled tt, s, [Toasted t])
        ∧ (t = ContentGenerator.toast_too_large ∨ t = ContentGenerator.toast_invalid_type)
        ∧ variant t = Some (JS.lit "destructive"))
  ∧ (∀ evs : list (World * ContentGenerator.UserEvent),
       (FileRead f ∉ snd (ContentGenerator.session api evs ContentGenerator.initial))
       ∧ Forall ContentGenerator.effect_valid
           (ContentGenerator.session api evs ContentGenerator.initial).2).
Proof.
  intros Hsel Hbad. apply file_invalid_spec in Hbad. split.
  - destruct (handleFileUpload_rejects event f s Hsel Hbad) as (t & Hrun & Ht).
    exists t. split; [exact Hrun|]. split; [exact Ht|].
    by destruct Ht as [->| ->].
  - intros evs.
    destruct (session_valid api evs _ initial_valid) as [_ Hall].
    split; [|exact Hall].
    intros Hin. rewrite Forall_forall in Hall.
    specialize (Hall _ Hin). simpl in Hall. congruence.
Qed.

Lemma C1_witness :
  (∃ t, ContentGenerator.handleFileUpload (Sample.select Sample.png) Sample.typed_prompt
        = (Fulfilled tt, Sample.typed_prompt, [Toasted t])
        ∧ (t = ContentGenerator.toast_too_large ∨ t = ContentGenerator.toast_invalid_type)
        ∧ variant t = Some (JS.lit "destructive"))
  ∧ (∀ evs : list (World * ContentGenerator.UserEvent),
       (FileRead Sample.png
          ∉ snd (ContentGenerator.session FrontendLibApi.api evs ContentGenerator.initial))
       ∧ Forall ContentGenerator.effect_valid
           (ContentGenerator.session FrontendLibApi.api evs ContentGenerator.initial).2).
Proof.
  apply (C1_invalid_file_is_rejected_locally FrontendLibApi.api
           (Sample.select Sample.png) Sample.png Sample.typed_prompt).
  - reflexivity.
  - right. apply (bool_decide_unpack _). vm_compute. exact I.
Defined.

(** C10.  A file-selection event whose file violates the size or the type
    constraint leaves the component state, and so the stored file, exactly as
    it was; a selection that passes both checks stores the selected file; and
    the stored file changes only in that second case. *)
Theorem C10_stored_file_changes_only_on_valid_selection
    (event : ContentGenerator.ChangeEvent) (s : ContentGenerator.State) :
  (∀ f, ContentGenerator.selectedFile event = Some f →
        5 * 1024 * 1024 < size f ∨ type f ∉ ContentGenerator.allowedTypes →
        run_state (ContentGenerator.handleFileUpload event s) = s)
  ∧ (∀ f, ContentGenerator.selectedFile event = Some f →
          size f ≤ 5 * 1024 * 1024 → type f ∈ ContentGenerator.allowedTypes →
          ContentGenerator.file (run_state (ContentGenerator.handleFileUpload event s))
          = Some f)
  ∧ (ContentGenerator.file (run_state (ContentGenerator.handleFileUpload event s))
     ≠ ContentGenerator.file s →
     ∃ f, ContentGenerator.selectedFile event = Some f
          ∧ size f ≤ 5 * 1024 * 1024 ∧ type f ∈ ContentGenerator.allowedTypes
          ∧ ContentGenerator.file (run_state (ContentGenerator.handleFileUpload event s))
            = Some f).
Proof.
  split; [|split].
  - intros f Hsel Hbad. apply file_invalid_spec in Hbad.
    by destruct (handleFileUpload_rejects event f s Hsel Hbad) as (t & -> & _).
  - intros f Hsel Hsize Htype.
    assert (Hok : ContentGenerator.file_valid f = true)
      by (by apply file_valid_spec).
    by rewrite (handleFileUpload_accepts event f s Hsel Hok).
  - intros Hchanged.
    destruct (ContentGenerator.selectedFile event) as [f|] eqn:Hsel.
    + destruct (ContentGenerator.file_valid f) eqn:Hv.
      * exists f. apply file_valid_spec in Hv as Hv'. destruct Hv' as [Hsize Htype].
        repeat split; try done.
        by rewrite (handleFileUpload_accepts event f s Hsel Hv).
      * destruct (handleFileUpload_rejects event f s Hsel Hv) as (t & Hrun & _).
        rewrite Hrun in Hchanged. by destruct Hchanged.
    + rewrite handleFileUpload_run, Hsel in Hchanged. by destruct Hchanged.
Qed.

Lemma C10_witness :
  run_state (ContentGenerator.handleFileUpload (Sample.select Sample.huge_pdf)
               (ContentGenerator.setFile (Some Sample.csv) Sample.typed_prompt))
  = ContentGenerator.setFile (Some Sample.csv) Sample.typed_prompt
  ∧ ContentGenerator.file
      (run_state (ContentGenerator.handleFileUpload (Sample.select Sample.csv)
                    Sample.typed_prompt))
    = Some Sample.csv.
Proof.
  split.
  - apply (proj1 (C10_stored_file_changes_only_on_valid_selection
                    (Sample.select Sample.huge_pdf)
                    (ContentGenerator.setFile (Some Sample.csv) Sample.typed_prompt))
                 Sample.huge_pdf).
    + reflexivity.
    + left. vm_compute. reflexivity.
  - apply (proj1 (proj2 (C10_stored_file_changes_only_on_valid_selection
                           (Sample.select Sample.csv) Sample.typed_prompt))
                 Sample.csv).
    + reflexivity.
    + vm_compute. discriminate.
    + apply (bool_decide_unpack _). vm_compute. exact I.
Defined.

(** C2.  A prompt (generation view) or a content string (sentiment view)
    that is empty or made only of white space is rejected on submit: the
    handler shows one toast, sends no request, reads no file and leaves the
    state of the view as it was. *)
Theorem C2_blank_submission_is_rejected_locally
    (w : World) (api : AxiosInstance)
    (g : ContentGenerator.State) (a : SentimentAnalyzer.State) :
  (forallb JS.isWhiteSpace (ContentGenerator.prompt g) = true →
   ContentGenerator.handleGenerate w api g
   = (Fulfilled tt, g, [Toasted ContentGenerator.toast_prompt_required]))
  ∧ (forallb JS.isWhiteSpace (SentimentAnalyzer.content a) = true →
     SentimentAnalyzer.handleAnalyze w api a
     = (Fulfilled tt, a, [Toasted SentimentAnalyzer.toast_content_required])).
Proof.
  split; intros Hblank.
  - apply handleGenerate_blank. by apply truthy_trim_blank.
  - apply handleAnalyze_blank. by apply truthy_trim_blank.
Qed.

Lemma C2_witness :
  ContentGenerator.handleGenerate Sample.world_down FrontendLibApi.api Sample.blank_prompt
  = (Fulfilled tt, Sample.blank_prompt, [Toasted ContentGenerator.toast_prompt_required])
  ∧ SentimentAnalyzer.handleAnalyze Sample.world_down FrontendLibApi.api Sample.blank_content
    = (Fulfilled tt, Sample.blank_content, [Toasted SentimentAnalyzer.toast_content_required]).
Proof.
  split.
  - apply (proj1 (C2_blank_submission_is_rejected_locally Sample.world_down
                    FrontendLibApi.api Sample.blank_prompt Sample.blank_content)).
    reflexivity.
  - apply (proj2 (C2_blank_submission_is_rejected_locally Sample.world_down
                    FrontendLibApi.api Sample.blank_prompt Sample.blank_content)).
    reflexivity.
Defined.

(** C3.  When analyze returns the score [s] (with a label that is shown),
    the progress bar that is displayed has width ((s + 1) / 2) * 100 percent,
    computed in IEEE 754 double precision as the code does; in particular
    the scores -1, 0, 0.8 and 1 give 0, 50, 90 and 100. *)
Theorem C3_progress_width
    (Number_toString toFixed3 : float → jsstring) (toUpperCase : jsstring → jsstring)
    (w : World) (api : AxiosInstance) (s : SentimentAnalyzer.State)
    (response : Api.AnalyzeResponse) :
  JS.truthy (JS.trim (SentimentAnalyzer.content s)) = true →
  analyze_reply w (analysisApi.request api (SentimentAnalyzer.content s))
  = Fulfilled response →
  JS.truthy (Api.sentiment_label response) = true →
  (∃ a, SentimentAnalyzer.render_results Number_toString toFixed3 toUpperCase
          (run_state (SentimentAnalyzer.handleAnalyze w api s))
        = SentimentAnalyzer.Results a
        ∧ SentimentAnalyzer.bar_width a
          = Number_toString (((Api.sentiment response + 1) / 2) * 100)%float
            ++ JS.lit "%")
  ∧ SentimentAnalyzer.getSentimentProgress (Some (-1)%float) = 0%float
  ∧ SentimentAnalyzer.getSentimentProgress (Some 0%float) = 50%float
  ∧ SentimentAnalyzer.getSentimentProgress (Some 0.8%float) = 90%float
  ∧ SentimentAnalyzer.getSentimentProgress (Some 1%float) = 100%float.
Proof.
  intros Hc Hreply Hlabel. split; [|repeat split; reflexivity].
  rewrite (handleAnalyze_succeeded w api s response Hc Hreply).
  unfold run_state, SentimentAnalyzer.render_results. simpl.
  rewrite Hlabel. eexists. split; reflexivity.
Qed.

Lemma C3_witness :
  (∃ a, SentimentAnalyzer.render_results Sample.Number_toString (λ _, []) (λ u, u)
          (run_state (SentimentAnalyzer.handleAnalyze
                        (Sample.world_up Sample.post_with_image Sample.two_trends
                           Sample.positive)
                        FrontendLibApi.api Sample.typed_content))
        = SentimentAnalyzer.Results a
        ∧ SentimentAnalyzer.bar_width a = JS.lit "90%")
  ∧ SentimentAnalyzer.getSentimentProgress (Some (-1)%float) = 0%float
  ∧ SentimentAnalyzer.getSentimentProgress (Some 0%float) = 50%float
  ∧ SentimentAnalyzer.getSentimentProgress (Some 0.8%float) = 90%float
  ∧ SentimentAnalyzer.getSentimentProgress (Some 1%float) = 100%float.
Proof.
  apply (C3_progress_width Sample.Number_toString (λ _, []) (λ u, u)
           (Sample.world_up Sample.post_with_image Sample.two_trends Sample.positive)
           FrontendLibApi.api Sample.typed_content Sample.positive);
    reflexivity.
Defined.

(** ** Runs of [handleGenerate] on unchecked response bodies *)

Section UncheckedRuns.

Context (w : Unchecked.World) (api : AxiosInstance).

Lemma unchecked_handleGenerate_run (s : Unchecked.State) :
  JS.truthy (JS.trim (Unchecked.prompt s)) = true →
  Unchecked.handleGenerate w api s =
  match Unchecked.handleGenerate_try w api s (Unchecked.setIsLoading true s) with
  | (Fulfilled _, s1, e1) => (Fulfilled tt, Unchecked.setIsLoading false s1, e1)
  | (Rejected error, s1, e1) =>
      (Fulfilled tt, Unchecked.setIsLoading false s1,
       e1 ++ [ConsoleError (JS.lit "[v0] Content generation error:") error;
              Toasted (ContentGenerator.toast_generation_failed error)])
  end.
Proof.
  intros Hp. unfold Unchecked.handleGenerate, Unchecked.handleGenerate_catch.
  unfold_handler. rewrite Hp. simpl.
  destruct (Unchecked.handleGenerate_try w api s _) as [[[u|error] s1] e1]; simpl.
  - by rewrite app_nil_r.
  - reflexivity.
Qed.

(** The [try] block once the reply is in: a null body throws at the first
    property read, every other body goes through to the success toast. *)
Lemma unchecked_try_reply (c s : Unchecked.State) (d : Unchecked.Data) :
  (∀ f, Unchecked.file c = Some f → Unchecked.reader_loads w f = true) →
  Unchecked.generate_reply w
    (contentApi.request api (Unchecked.prompt c)
       (DataURL.readAsDataURL <$> Unchecked.file c)) = Fulfilled d →
  run_result (Unchecked.handleGenerate_try w api c s)
  = match d with
    | Unchecked.DNull =>
        Rejected (ThrownError (Unchecked.typeError_message (JS.lit "content")))
    | _ => Fulfilled tt
    end.
Proof.
  intros Hread Hreply.
  unfold Unchecked.handleGenerate_try, Unchecked.fileToBase64, Unchecked.generate,
    Unchecked.eval.
  unfold_handler.
  destruct (Unchecked.file c) as [f|]; simpl in *.
  - rewrite (Hread f eq_refl). simpl. rewrite Hreply. simpl.
    destruct d as [|props|]; simpl; try reflexivity.
    destruct (props !! _); simpl; by destruct (props !! _).
  - rewrite Hreply. simpl.
    destruct d as [|props|]; simpl; try reflexivity.
    destruct (props !! _); simpl; by destruct (props !! _).
Qed.

(** The [try] block shows the success toast when it completes and no toast
    when it throws. *)
Lemma unchecked_try_toasts (c s : Unchecked.State) :
  toasts (run_effects (Unchecked.handleGenerate_try w api c s))
  = match run_result (Unchecked.handleGenerate_try w api c s) with
    | Fulfilled _ => [Toasted ContentGenerator.toast_generated]
    | Rejected _ => []
    end.
Proof.
  unfold Unchecked.handleGenerate_try, Unchecked.fileToBase64, Unchecked.generate,
    Unchecked.eval.
  unfold_handler.
  destruct (Unchecked.file c) as [f|]; [destruct (Unchecked.reader_loads w f)|];
    simpl; try reflexivity;
    (destruct (Unchecked.generate_reply w _) as [[|props|]|error]; simpl;
     try reflexivity;
     destruct (props !! _); simpl; by destruct (props !! _)).
Qed.

End UncheckedRuns.

(** C5, as the code has it.  When the [try] block of a generate submission
    throws, exactly one toast is shown.  Its text is the cannot-connect
    message when the thrown value is an Error whose message is "Network
    Error" or contains "ECONNREFUSED" (what the HTTP client reports when the
    backend cannot be reached or refuses the connection), and the generic
    try-again message for every other thrown value: an HTTP status error, a
    failed file read, the TypeError of a null body, any other exception.
    The two messages are different.  A 2xx reply whose body has another
    shape than the declared one is not checked: unless the body is null,
    nothing is thrown and the success toast is shown. *)
Theorem C5_failure_messages
    (w : Unchecked.World) (api : AxiosInstance) (s : Unchecked.State) :
  JS.truthy (JS.trim (Unchecked.prompt s)) = true →
  (∀ error,
     run_result (Unchecked.handleGenerate_try w api s (Unchecked.setIsLoading true s))
     = Rejected error →
     toasts (run_effects (Unchecked.handleGenerate w api s))
     = [Toasted {| title := JS.lit "Generation failed";
                   description := if ContentGenerator.isNetworkError error
                                  then ContentGenerator.msg_cannot_connect
                                  else ContentGenerator.msg_generic;
                   variant := Some (JS.lit "destructive") |}])
  ∧ (run_result (Unchecked.handleGenerate_try w api s (Unchecked.setIsLoading true s))
     = Fulfilled tt →
     toasts (run_effects (Unchecked.handleGenerate w api s))
     = [Toasted ContentGenerator.toast_generated])
  ∧ (∀ d,
       (∀ f, Unchecked.file s = Some f → Unchecked.reader_loads w f = true) →
       Unchecked.generate_reply w
         (contentApi.request api (Unchecked.prompt s)
            (DataURL.readAsDataURL <$> Unchecked.file s)) = Fulfilled d →
       run_result (Unchecked.handleGenerate_try w api s (Unchecked.setIsLoading true s))
       = match d with
         | Unchecked.DNull =>
             Rejected (ThrownError (Unchecked.typeError_message (JS.lit "content")))
         | _ => Fulfilled tt
         end)
  ∧ (∀ error,
       ContentGenerator.isNetworkError error = true ↔
       ∃ message, error = ThrownError message
                  ∧ (message = JS.lit "Network Error"
                     ∨ ∃ a b, message = a ++ JS.lit "ECONNREFUSED" ++ b))
  ∧ ContentGenerator.isNetworkError (ThrownError (JS.lit "Network Error")) = true
  ∧ ContentGenerator.isNetworkError
      (ThrownError (JS.lit "connect ECONNREFUSED 127.0.0.1:8000")) = true
  ∧ ContentGenerator.isNetworkError
      (ThrownError (JS.lit "Request failed with status code 500")) = false
  ∧ ContentGenerator.isNetworkError
      (ThrownError (Unchecked.typeError_message (JS.lit "content"))) = false
  ∧ ContentGenerator.isNetworkError ThrownOther = false
  ∧ JS.str_eqb ContentGenerator.msg_cannot_connect ContentGenerator.msg_generic = false.
Proof.
  intros Hp.
  pose proof (unchecked_handleGenerate_run w api s Hp) as Hrun.
  pose proof (unchecked_try_toasts w api s (Unchecked.setIsLoading true s)) as Htoasts.
  split; [|split; [|split; [|split; [|repeat split; reflexivity]]]].
  - intros error Hr. rewrite Hrun. unfold run_result, run_effects in *.
    destruct (Unchecked.handleGenerate_try w api s _) as [[r s1] e1].
    simpl in *. subst r. simpl. unfold toasts in *.
    rewrite filter_app, Htoasts. reflexivity.
  - intros Hr. rewrite Hrun. unfold run_result, run_effects in *.
    destruct (Unchecked.handleGenerate_try w api s _) as [[r s1] e1].
    simpl in *. subst r. simpl. exact Htoasts.
  - intros d Hread Hreply. by apply unchecked_try_reply.
  - intros error. unfold ContentGenerator.isNetworkError.
    destruct error as [message|].
    + rewrite orb_true_iff, includes_spec. unfold JS.str_eqb.
      rewrite bool_decide_eq_true. split.
      * intros H. exists message. split; [done|exact H].
      * intros (m & Hm & H). by injection Hm as ->.
    + split; [discriminate|]. intros (m & Hm & _). discriminate Hm.
Qed.

Lemma C5_witness :
  toasts (run_effects (Unchecked.handleGenerate SampleUnchecked.world_down
                         FrontendLibApi.api SampleUnchecked.typed_prompt))
  = [Toasted {| title := JS.lit "Generation failed";
                description := ContentGenerator.msg_cannot_connect;
                variant := Some (JS.lit "destructive") |}]
  ∧ toasts (run_effects (Unchecked.handleGenerate
                           (SampleUnchecked.world_200 Unchecked.DNull)
                           FrontendLibApi.api SampleUnchecked.typed_prompt))
    = [Toasted {| title := JS.lit "Generation failed";
                  description := ContentGenerator.msg_generic;
                  variant := Some (JS.lit "destructive") |}].
Proof.
  split.
  - apply (proj1 (C5_failure_messages SampleUnchecked.world_down FrontendLibApi.api
                    SampleUnchecked.typed_prompt eq_refl) Sample.network_error).
    reflexivity.
  - apply (proj1 (C5_failure_messages (SampleUnchecked.world_200 Unchecked.DNull)
                    FrontendLibApi.api SampleUnchecked.typed_prompt eq_refl)
                 (ThrownError (Unchecked.typeError_message (JS.lit "content")))).
    reflexivity.
Defined.

(** C5 as stated fails for a malformed response: a 2xx reply whose body is
    not of the declared shape (an object without [content] and [image_url],
    or a body that is not an object at all) is not a failure for the view,
    which shows the success toast and no failure message. *)
Lemma C5_counterexample :
  Unchecked.well_formed SampleUnchecked.detail_only = None
  ∧ toasts (run_effects (Unchecked.handleGenerate
                           (SampleUnchecked.world_200 SampleUnchecked.detail_only)
                           FrontendLibApi.api SampleUnchecked.typed_prompt))
    = [Toasted ContentGenerator.toast_generated]
  ∧ Unchecked.well_formed Unchecked.DOther = None
  ∧ toasts (run_effects (Unchecked.handleGenerate
                           (SampleUnchecked.world_200 Unchecked.DOther)
                           FrontendLibApi.api SampleUnchecked.typed_prompt))
    = [Toasted ContentGenerator.toast_generated].
Proof. repeat split; vm_compute; reflexivity. Qed.

(** C6.  A view that is not loading shows the no-trends placeholder when the
    trends list is empty (not the spinner, not a grid), and otherwise a grid
    with exactly one card per trend in the order of the list, keyed by
    position; and after a getTrends response the view is not loading and
    holds the trends of the response. *)
Theorem C6_trends_rendering
    (w : World) (api : AxiosInstance) (s : TrendsViewer.State)
    (response : Api.TrendsResponse) :
  (TrendsViewer.isLoading s = false →
   (TrendsViewer.trends s = [] →
    TrendsViewer.render_body s
    = TrendsViewer.NoTrends (JS.lit "No trends available. Click refresh to load trends.")
    ∧ TrendsViewer.render_body s ≠ TrendsViewer.Spinner
    ∧ ∀ cards, TrendsViewer.render_body s ≠ TrendsViewer.Grid cards)
   ∧ (TrendsViewer.trends s ≠ [] →
      ∃ cards, TrendsViewer.render_body s = TrendsViewer.Grid cards
               ∧ length cards = length (TrendsViewer.trends s)
               ∧ TrendsViewer.card_title <$> cards = TrendsViewer.trends s
               ∧ TrendsViewer.key <$> cards = seq 0 (length (TrendsViewer.trends s))))
  ∧ (trends_reply w (trendsApi.request api) = Fulfilled response →
     TrendsViewer.isLoading (run_state (TrendsViewer.fetchTrends w api s)) = false
     ∧ TrendsViewer.trends (run_state (TrendsViewer.fetchTrends w api s))
       = Api.trends response).
Proof.
  split.
  - intros Hidle. unfold TrendsViewer.render_body. rewrite Hidle. split.
    + intros ->. simpl. split; [reflexivity|]. split; [discriminate|].
      intros cards. discriminate.
    + intros Hne. destruct (TrendsViewer.trends s) as [|t l] eqn:Hl; [done|].
      eexists. split; [reflexivity|]. split; [|split].
      * apply length_imap.
      * apply cards_titles.
      * apply cards_keys.
  - intros Hreply. rewrite fetchTrends_run. simpl. rewrite Hreply. done.
Qed.

Lemma C6_witness :
  TrendsViewer.render_body
    (run_state (TrendsViewer.fetchTrends
                  (Sample.world_up Sample.post_with_image {| Api.trends := [] |}
                     Sample.positive)
                  FrontendLibApi.api TrendsViewer.initial))
  = TrendsViewer.NoTrends (JS.lit "No trends available. Click refresh to load trends.")
  ∧ ∃ cards,
      TrendsViewer.render_body
        (run_state (TrendsViewer.fetchTrends
                      (Sample.world_up Sample.post_with_image Sample.two_trends
                         Sample.positive)
                      FrontendLibApi.api TrendsViewer.initial))
      = TrendsViewer.Grid cards
      ∧ length cards = 2%nat
      ∧ TrendsViewer.card_title <$> cards = [JS.lit "Short video"; JS.lit "AI copy"]
      ∧ TrendsViewer.key <$> cards = [0; 1]%nat.
Proof.
  split.
  - apply (proj1 (C6_trends_rendering
                    (Sample.world_up Sample.post_with_image {| Api.trends := [] |}
                       Sample.positive)
                    FrontendLibApi.api
                    (run_state (TrendsViewer.fetchTrends
                       (Sample.world_up Sample.post_with_image {| Api.trends := [] |}
                          Sample.positive)
                       FrontendLibApi.api TrendsViewer.initial))
                    {| Api.trends := [] |})); reflexivity.
  - apply (proj1 (C6_trends_rendering
                    (Sample.world_up Sample.post_with_image Sample.two_trends
                       Sample.positive)
                    FrontendLibApi.api
                    (run_state (TrendsViewer.fetchTrends
                       (Sample.world_up Sample.post_with_image Sample.two_trends
                          Sample.positive)
                       FrontendLibApi.api TrendsViewer.initial))
                    Sample.two_trends)); [reflexivity|].
    vm_compute. discriminate.
Defined.

(** C7, as the code has it.  After a successful generate response the view
    holds the returned content and image URL.  When the content is a
    non-empty string its text is rendered, and the image is rendered exactly
    when the image URL is neither null nor the empty string; when the content
    is the empty string the placeholder is shown and neither text nor image.
    An image whose load fails is hidden (display none). *)
Theorem C7_success_is_stored_and_displayed
    (w : World) (api : AxiosInstance) (s : ContentGenerator.State)
    (response : Api.GenerateResponse) :
  JS.truthy (JS.trim (ContentGenerator.prompt s)) = true →
  (∀ f, ContentGenerator.file s = Some f → reader_loads w f = true) →
  generate_reply w
    (contentApi.request api (ContentGenerator.prompt s) (ContentGenerator.fileData s))
  = Fulfilled response →
  ContentGenerator.generatedContent (run_state (ContentGenerator.handleGenerate w api s))
  = Api.content response
  ∧ ContentGenerator.imageUrl (run_state (ContentGenerator.handleGenerate w api s))
    = Api.image_url response
  ∧ ContentGenerator.render_output (run_state (ContentGenerator.handleGenerate w api s))
    = (if JS.truthy (Api.content response) then
         ContentGenerator.Generated (Api.content response)
           (if JS.truthy_opt (Api.image_url response) then
              Some {| ContentGenerator.src := default [] (Api.image_url response);
                      ContentGenerator.alt := JS.lit "Generated content visual";
                      ContentGenerator.style_display := None |}
            else None)
       else ContentGenerator.Placeholder)
  ∧ (∀ img, ContentGenerator.img_shown (ContentGenerator.img_onError img) = false).
Proof.
  intros Hp Hread Hreply.
  rewrite (handleGenerate_succeeded w api s response Hp Hread Hreply).
  unfold run_state, ContentGenerator.render_output. simpl.
  repeat split.
  destruct (JS.truthy (Api.content response)); [|reflexivity].
  destruct (Api.image_url response) as [u|]; simpl; [|reflexivity].
  destruct (JS.truthy u) eqn:Hu; reflexivity.
Qed.

Lemma C7_witness :
  ContentGenerator.render_output
    (run_state (ContentGenerator.handleGenerate
                  (Sample.world_up Sample.post_with_image Sample.two_trends Sample.positive)
                  FrontendLibApi.api Sample.typed_prompt))
  = ContentGenerator.Generated (JS.lit "Run further.")
      (Some {| ContentGenerator.src := JS.lit "https://img.example/run.png";
               ContentGenerator.alt := JS.lit "Generated content visual";
               ContentGenerator.style_display := None |}).
Proof.
  apply (C7_success_is_stored_and_displayed
           (Sample.world_up Sample.post_with_image Sample.two_trends Sample.positive)
           FrontendLibApi.api Sample.typed_prompt Sample.post_with_image).
  - reflexivity.
  - intros f Hf. reflexivity.
  - reflexivity.
Defined.

(** C7 as stated fails: a successful response whose image URL is the empty
    string (not null) is displayed without an image, and a successful
    response whose content is the empty string is displayed as the
    placeholder, with neither its text nor its (non-null) image. *)
Lemma C7_counterexample :
  Api.image_url Sample.post_with_empty_image_url = Some []
  ∧ ContentGenerator.render_output
      (run_state (ContentGenerator.handleGenerate
                    (Sample.world_up Sample.post_with_empty_image_url Sample.two_trends
                       Sample.positive)
                    FrontendLibApi.api Sample.typed_prompt))
    = ContentGenerator.Generated (JS.lit "Run further.") None
  ∧ Api.image_url Sample.empty_post_with_image
    = Some (JS.lit "https://img.example/run.png")
  ∧ ContentGenerator.render_output
      (run_state (ContentGenerator.handleGenerate
                    (Sample.world_up Sample.empty_post_with_image Sample.two_trends
                       Sample.positive)
                    FrontendLibApi.api Sample.typed_prompt))
    = ContentGenerator.Placeholder.
Proof. repeat split; reflexivity. Qed.

(** C8.  When the request of a generate or an analyze submission fails, the
    handler itself completes normally, shows one toast, and leaves a state
    that differs from the one it started in at most in the loading flag,
    which is false: the prompt, the attached file, the entered content and
    the results shown before are what they were. *)
Theorem C8_failure_keeps_inputs_and_results
    (w : World) (api : AxiosInstance)
    (g : ContentGenerator.State) (a : SentimentAnalyzer.State) (eg ea : Thrown) :
  (JS.truthy (JS.trim (ContentGenerator.prompt g)) = true →
   run_result (ContentGenerator.handleGenerate_try w api g
                 (ContentGenerator.setIsLoading true g)) = Rejected eg →
   run_result (ContentGenerator.handleGenerate w api g) = Fulfilled tt
   ∧ run_state (ContentGenerator.handleGenerate w api g)
     = {| ContentGenerator.prompt := ContentGenerator.prompt g;
          ContentGenerator.file := ContentGenerator.file g;
          ContentGenerator.generatedContent := ContentGenerator.generatedContent g;
          ContentGenerator.imageUrl := ContentGenerator.imageUrl g;
          ContentGenerator.isLoading := false |}
   ∧ filter (λ e, isToast e = true)
       (run_effects (ContentGenerator.handleGenerate w api g))
     = [Toasted (ContentGenerator.toast_generation_failed eg)])
  ∧ (JS.truthy (JS.trim (SentimentAnalyzer.content a)) = true →
     analyze_reply w (analysisApi.request api (SentimentAnalyzer.content a))
     = Rejected ea →
     run_result (SentimentAnalyzer.handleAnalyze w api a) = Fulfilled tt
     ∧ run_state (SentimentAnalyzer.handleAnalyze w api a)
       = {| SentimentAnalyzer.content := SentimentAnalyzer.content a;
            SentimentAnalyzer.sentiment := SentimentAnalyzer.sentiment a;
            SentimentAnalyzer.sentimentLabel := SentimentAnalyzer.sentimentLabel a;
            SentimentAnalyzer.isLoading := false |}
     ∧ filter (λ e, isToast e = true)
         (run_effects (SentimentAnalyzer.handleAnalyze w api a))
       = [Toasted SentimentAnalyzer.toast_failed]).
Proof.
  split.
  - intros Hp Hr. rewrite (handleGenerate_failed w api g eg Hp Hr).
    destruct (handleGenerate_try_rejected w api _ _ _ Hr) as [_ Hquiet].
    split; [reflexivity|]. split; [reflexivity|].
    unfold run_effects at 1. cbn [snd]. rewrite filter_app, Hquiet. reflexivity.
  - intros Hc Hr. rewrite (handleAnalyze_failed w api a ea Hc Hr).
    repeat split.
Qed.

Lemma C8_witness :
  run_state (ContentGenerator.handleGenerate Sample.world_down FrontendLibApi.api
               (ContentGenerator.setFile (Some Sample.csv) Sample.typed_prompt))
  = ContentGenerator.setFile (Some Sample.csv) Sample.typed_prompt
  ∧ run_state (SentimentAnalyzer.handleAnalyze Sample.world_down FrontendLibApi.api
                 Sample.typed_content)
    = Sample.typed_content.
Proof.
  split.
  - apply (proj1 (C8_failure_keeps_inputs_and_results Sample.world_down
                    FrontendLibApi.api
                    (ContentGenerator.setFile (Some Sample.csv) Sample.typed_prompt)
                    Sample.typed_content Sample.network_error Sample.network_error));
      reflexivity.
  - apply (proj2 (C8_failure_keeps_inputs_and_results Sample.world_down
                    FrontendLibApi.api
                    (ContentGenerator.setFile (Some Sample.csv) Sample.typed_prompt)
                    Sample.typed_content Sample.network_error Sample.network_error));
      reflexivity.
Defined.

(** C9.  For a file that passes validation, the string [fileToBase64]
    resolves with decodes back to exactly the bytes of the file. *)
Theorem C9_data_url_round_trip
    (w : World) (f : File) (s : ContentGenerator.State) :
  ContentGenerator.file_valid f = true →
  reader_loads w f = true →
  ∃ d, ContentGenerator.fileToBase64 w f s = (Fulfilled d, s, [FileRead f])
       ∧ DataURL.decode d = Some (bytes f).
Proof.
  intros Hok Hload. exists (DataURL.readAsDataURL f). split.
  - unfold ContentGenerator.fileToBase64, await. by rewrite Hload.
  - apply decode_readAsDataURL, allowedTypes_no_comma.
    by apply file_valid_spec in Hok as [_ Hty].
Qed.

Lemma C9_witness :
  ∃ d, ContentGenerator.fileToBase64 Sample.world_down Sample.csv Sample.typed_prompt
       = (Fulfilled d, Sample.typed_prompt, [FileRead Sample.csv])
       ∧ DataURL.decode d = Some [x61; x2c; x62; x0a; x31; x2c; x32; x0a]%byte.
Proof.
  apply (C9_data_url_round_trip Sample.world_down Sample.csv Sample.typed_prompt);
    reflexivity.
Defined.

(** C4, as the code has it.  Every request of an adapter carries the base
    URL of that adapter.  In the adapter that reads the environment the base
    URL is the value of NEXT_PUBLIC_API_BASE_URL when it is set and
    http://localhost:8000 otherwise, nothing else of the environment matters,
    and generate is its only operation.  In the adapter with all three
    operations the base URL is the constant http://localhost:8000. *)
Theorem C4_base_url
    (process_env : gmap (list N) (list N)) (text : jsstring) (file : option jsstring) :
  EnvApi.API_BASE_URL process_env
  = default (JS.lit "http://localhost:8000")
      (process_env !! JS.lit "NEXT_PUBLIC_API_BASE_URL")
  ∧ (∀ op, EnvApi.request_of process_env op text file
           = match op with
             | OpGenerate =>
                 Some {| instance := Axios.create (EnvApi.API_BASE_URL process_env);
                         method := POST;
                         url := JS.lit "/api/v1/content/generate";
                         data := Some (GenerateBody text file) |}
             | _ => None
             end)
  ∧ (∀ env' : gmap (list N) (list N),
       env' !! EnvApi.NEXT_PUBLIC_API_BASE_URL
       = process_env !! EnvApi.NEXT_PUBLIC_API_BASE_URL →
       ∀ op, EnvApi.request_of env' op text file
             = EnvApi.request_of process_env op text file)
  ∧ (∀ op, ∃ r, FrontendLibApi.request_of op text file = Some r
                ∧ baseURL (instance r) = JS.lit "http://localhost:8000")
  ∧ (∀ (S : Type) (w : World) (api : AxiosInstance) (s : S),
       run_effects (contentApi.generate w api text file s)
       = [Http (contentApi.request api text file)]
       ∧ run_effects (trendsApi.getTrends w api s) = [Http (trendsApi.request api)]
       ∧ run_effects (analysisApi.analyze w api text s)
         = [Http (analysisApi.request api text)]
       ∧ baseURL (instance (contentApi.request api text file)) = baseURL api
       ∧ baseURL (instance (trendsApi.request api)) = baseURL api
       ∧ baseURL (instance (analysisApi.request api text)) = baseURL api).
Proof.
  split; [|split; [|split; [|split]]].
  - unfold EnvApi.API_BASE_URL, EnvApi.NEXT_PUBLIC_API_BASE_URL.
    by destruct (process_env !! _).
  - intros []; reflexivity.
  - intros env' Henv []; simpl; try reflexivity.
    unfold EnvApi.api, EnvApi.API_BASE_URL. by rewrite Henv.
  - intros []; eexists; (split; [reflexivity|reflexivity]).
  - intros S w api s. repeat split.
Qed.

Lemma C4_witness :
  EnvApi.request_of (<[JS.lit "NODE_ENV" := JS.lit "production"]> Sample.env_override)
    OpGenerate (JS.lit "hello") None
  = EnvApi.request_of Sample.env_override OpGenerate (JS.lit "hello") None.
Proof.
  apply (proj1 (proj2 (proj2 (C4_base_url Sample.env_override (JS.lit "hello") None)))
           (<[JS.lit "NODE_ENV" := JS.lit "production"]> Sample.env_override)).
  vm_compute. reflexivity.
Defined.

(** C4 as stated fails on both adapters.  With the override set in the
    environment, the adapter that offers all three operations still sends
    getTrends to http://localhost:8000; and the adapter that honours the
    override sends to it, but offers neither getTrends nor analyze. *)
Lemma C4_counterexample :
  Sample.env_override !! EnvApi.NEXT_PUBLIC_API_BASE_URL
  = Some (JS.lit "https://api.example.com")
  ∧ (baseURL <$> (instance <$> FrontendLibApi.request_of OpGetTrends [] None))
    = Some (JS.lit "http://localhost:8000")
  ∧ (baseURL <$> (instance <$> EnvApi.request_of Sample.env_override OpGenerate [] None))
    = Some (JS.lit "https://api.example.com")
  ∧ EnvApi.request_of Sample.env_override OpGetTrends [] None = None
  ∧ EnvApi.request_of Sample.env_override OpAnalyze [] None = None.
Proof. repeat split; vm_compute; reflexivity. Qed.

(** * Further properties of the views *)

Lemma blank_iff (s : jsstring) :
  JS.truthy (JS.trim s) = negb (forallb JS.isWhiteSpace s).
Proof.
  destruct (forallb JS.isWhiteSpace s) eqn:Hws; simpl.
  - by apply truthy_trim_blank.
  - destruct (JS.trim s) as [|c r] eqn:Ht; [|reflexivity].
    apply trim_nil_iff in Ht. congruence.
Qed.

(** The whole run of [handleGenerate] once the prompt is not blank. *)
Lemma handleGenerate_run (w : World) (api : AxiosInstance) (s : ContentGenerator.State) :
  JS.truthy (JS.trim (ContentGenerator.prompt s)) = true →
  ContentGenerator.handleGenerate w api s =
  match ContentGenerator.handleGenerate_try w api s (ContentGenerator.setIsLoading true s) with
  | (Fulfilled _, s1, e1) => (Fulfilled tt, ContentGenerator.setIsLoading false s1, e1)
  | (Rejected error, s1, e1) =>
      (Fulfilled tt, ContentGenerator.setIsLoading false s1,
       e1 ++ [ConsoleError (JS.lit "[v0] Content generation error:") error;
              Toasted (ContentGenerator.toast_generation_failed error)])
  end.
Proof.
  intros Hp. unfold ContentGenerator.handleGenerate, ContentGenerator.handleGenerate_catch.
  unfold_handler. rewrite Hp. simpl.
  destruct (ContentGenerator.handleGenerate_try w api s _) as [[[u|error] s1] e1]; simpl.
  - by rewrite app_nil_r.
  - reflexivity.
Qed.

(** On replies of the declared shape the two embeddings of [handleGenerate]
    do the same: same outcome, same effects, corresponding states. *)
Lemma unchecked_agrees_with_typed
    (wu : Unchecked.World) (wt : World) (api : AxiosInstance)
    (s : ContentGenerator.State) :
  (∀ f, Unchecked.reader_loads wu f = reader_loads wt f) →
  (∀ r, match generate_reply wt r with
        | Fulfilled response =>
            ∃ d, Unchecked.generate_reply wu r = Fulfilled d
                 ∧ Unchecked.well_formed d = Some response
        | Rejected error => Unchecked.generate_reply wu r = Rejected error
        end) →
  Unchecked.handleGenerate wu api (Unchecked.of_typed s)
  = match ContentGenerator.handleGenerate wt api s with
    | (r, s', e) => (r, Unchecked.of_typed s', e)
    end.
Proof.
  intros Hreader Hreply.
  destruct (JS.truthy (JS.trim (ContentGenerator.prompt s))) eqn:Hp.
  - rewrite (unchecked_handleGenerate_run wu api (Unchecked.of_typed s) Hp).
    rewrite (handleGenerate_run wt api s Hp), handleGenerate_try_run.
    unfold Unchecked.handleGenerate_try, Unchecked.fileToBase64, Unchecked.generate,
      Unchecked.eval.
    unfold_handler. simpl.
    destruct (ContentGenerator.file s) as [f|]; simpl.
    + rewrite Hreader. destruct (reader_loads wt f); simpl; [|reflexivity].
      specialize (Hreply (contentApi.request api (ContentGenerator.prompt s)
                            (Some (DataURL.readAsDataURL f)))).
      destruct (generate_reply wt _) as [response|error].
      * destruct Hreply as (d & -> & Hd).
        unfold Unchecked.get, Unchecked.well_formed in *.
        destruct d as [|props|]; try discriminate Hd.
        destruct (props !! JS.lit "content") as [[| |c|]|]; try discriminate Hd.
        destruct (props !! JS.lit "image_url") as [[| |u|]|]; try discriminate Hd;
          injection Hd as <-; reflexivity.
      * rewrite Hreply. reflexivity.
    + specialize (Hreply (contentApi.request api (ContentGenerator.prompt s) None)).
      destruct (generate_reply wt _) as [response|error].
      * destruct Hreply as (d & -> & Hd).
        unfold Unchecked.get, Unchecked.well_formed in *.
        destruct d as [|props|]; try discriminate Hd.
        destruct (props !! JS.lit "content") as [[| |c|]|]; try discriminate Hd.
        destruct (props !! JS.lit "image_url") as [[| |u|]|]; try discriminate Hd;
          injection Hd as <-; reflexivity.
      * rewrite Hreply. reflexivity.
  - rewrite (handleGenerate_blank wt api s Hp).
    unfold Unchecked.handleGenerate. unfold_handler. simpl. by rewrite Hp.
Qed.

(** X1.  The requests of a generate submission.  A submission reaches the network
    exactly when the prompt has a character that is not white space and the
    attached file, if there is one, could be read; then it is one POST to
    the generate endpoint whose body is the prompt as it was typed (not
    trimmed) and the data URL of the attached file, or no file. *)
Theorem generate_submission_requests
    (w : World) (api : AxiosInstance) (s : ContentGenerator.State) :
  requests (run_effects (ContentGenerator.handleGenerate w api s))
  = (if negb (forallb JS.isWhiteSpace (ContentGenerator.prompt s))
        && match ContentGenerator.file s with
           | Some f => reader_loads w f
           | None => true
           end
     then [Http {| instance := api; method := POST;
                   url := JS.lit "/api/v1/content/generate";
                   data := Some (GenerateBody (ContentGenerator.prompt s)
                                   (DataURL.readAsDataURL <$> ContentGenerator.file s)) |}]
     else []).
Proof.
  rewrite <- blank_iff.
  destruct (JS.truthy (JS.trim (ContentGenerator.prompt s))) eqn:Hp.
  - rewrite (handleGenerate_run w api s Hp), handleGenerate_try_run.
    destruct (ContentGenerator.file s) as [f|]; [destruct (reader_loads w f)|];
      simpl; try reflexivity; destruct (generate_reply w _); reflexivity.
  - by rewrite (handleGenerate_blank w api s Hp).
Qed.

(** X2.  The requests of an analyze submission: one POST to the analysis
    endpoint carrying the content as typed when the content has a character
    that is not white space, and none otherwise. *)
Theorem analyze_submission_requests
    (w : World) (api : AxiosInstance) (s : SentimentAnalyzer.State) :
  requests (run_effects (SentimentAnalyzer.handleAnalyze w api s))
  = (if forallb JS.isWhiteSpace (SentimentAnalyzer.content s) then []
     else [Http {| instance := api; method := POST;
                   url := JS.lit "/api/v1/analysis";
                   data := Some (AnalyzeBody (SentimentAnalyzer.content s)) |}]).
Proof.
  pose proof (blank_iff (SentimentAnalyzer.content s)) as Hb.
  destruct (forallb JS.isWhiteSpace (SentimentAnalyzer.content s)); simpl in Hb.
  - by rewrite (handleAnalyze_blank w api s Hb).
  - destruct (analyze_reply w (analysisApi.request api (SentimentAnalyzer.content s)))
      as [response|error] eqn:Hr.
    + by rewrite (handleAnalyze_succeeded w api s response Hb Hr).
    + by rewrite (handleAnalyze_failed w api s error Hb Hr).
Qed.

(** X3.  Whatever the backend and the file reader do, a handler that is invoked
    completes without throwing and shows exactly one toast. *)
Theorem every_submission_is_answered_once
    (w : World) (api : AxiosInstance) (g : ContentGenerator.State)
    (a : SentimentAnalyzer.State) (t : TrendsViewer.State) :
  (run_result (ContentGenerator.handleGenerate w api g) = Fulfilled tt
   ∧ length (toasts (run_effects (ContentGenerator.handleGenerate w api g))) = 1%nat)
  ∧ (run_result (SentimentAnalyzer.handleAnalyze w api a) = Fulfilled tt
     ∧ length (toasts (run_effects (SentimentAnalyzer.handleAnalyze w api a))) = 1%nat)
  ∧ (run_result (TrendsViewer.fetchTrends w api t) = Fulfilled tt
     ∧ length (toasts (run_effects (TrendsViewer.fetchTrends w api t))) = 1%nat).
Proof.
  split; [|split].
  - destruct (JS.truthy (JS.trim (ContentGenerator.prompt g))) eqn:Hp.
    + rewrite (handleGenerate_run w api g Hp), handleGenerate_try_run.
      destruct (ContentGenerator.file g) as [f|]; [destruct (reader_loads w f)|];
        simpl; try (split; reflexivity); destruct (generate_reply w _); split; reflexivity.
    + by rewrite (handleGenerate_blank w api g Hp).
  - destruct (JS.truthy (JS.trim (SentimentAnalyzer.content a))) eqn:Hc.
    + destruct (analyze_reply w (analysisApi.request api (SentimentAnalyzer.content a)))
        as [response|error] eqn:Hr.
      * by rewrite (handleAnalyze_succeeded w api a response Hc Hr).
      * by rewrite (handleAnalyze_failed w api a error Hc Hr).
    + by rewrite (handleAnalyze_blank w api a Hc).
  - rewrite fetchTrends_run. simpl.
    destruct (trends_reply w _); split; reflexivity.
Qed.

(** X4.  A submission never edits the form: whatever happens, the prompt and the
    attached file are the same after [handleGenerate], and the content is
    the same after [handleAnalyze]; the form is not cleared on success. *)
Theorem submission_keeps_the_form
    (w : World) (api : AxiosInstance) (g : ContentGenerator.State)
    (a : SentimentAnalyzer.State) :
  ContentGenerator.prompt (run_state (ContentGenerator.handleGenerate w api g))
  = ContentGenerator.prompt g
  ∧ ContentGenerator.file (run_state (ContentGenerator.handleGenerate w api g))
    = ContentGenerator.file g
  ∧ SentimentAnalyzer.content (run_state (SentimentAnalyzer.handleAnalyze w api a))
    = SentimentAnalyzer.content a.
Proof.
  split; [|split].
  - destruct (JS.truthy (JS.trim (ContentGenerator.prompt g))) eqn:Hp.
    + rewrite (handleGenerate_run w api g Hp), handleGenerate_try_run.
      destruct (ContentGenerator.file g) as [f|]; [destruct (reader_loads w f)|];
        simpl; try reflexivity; destruct (generate_reply w _); reflexivity.
    + by rewrite (handleGenerate_blank w api g Hp).
  - apply handleGenerate_file.
  - destruct (JS.truthy (JS.trim (SentimentAnalyzer.content a))) eqn:Hc.
    + destruct (analyze_reply w (analysisApi.request api (SentimentAnalyzer.content a)))
        as [response|error] eqn:Hr.
      * by rewrite (handleAnalyze_succeeded w api a response Hc Hr).
      * by rewrite (handleAnalyze_failed w api a error Hc Hr).
    + by rewrite (handleAnalyze_blank w api a Hc).
Qed.

(** ** Sessions of the generation view *)

Lemma dispatch_settles (w : World) (api : AxiosInstance)
    (ev : ContentGenerator.UserEvent) (s : ContentGenerator.State) :
  ContentGenerator.isLoading s = false →
  ContentGenerator.isLoading (run_state (ContentGenerator.dispatch w api ev s)) = false.
Proof.
  intros Hidle. destruct ev as [v|event| |]; simpl; try exact Hidle.
  - rewrite handleFileUpload_run. unfold run_state.
    destruct (ContentGenerator.selectedFile event) as [f|]; [|exact Hidle].
    destruct (5 * 1024 * 1024 <? size f); [exact Hidle|].
    destruct (JS.array_includes _ _); exact Hidle.
  - destruct (JS.truthy (JS.trim (ContentGenerator.prompt s))) eqn:Hp.
    + rewrite (handleGenerate_run w api s Hp).
      by destruct (ContentGenerator.handleGenerate_try w api s _) as [[[u|error] s1] e1].
    + by rewrite (handleGenerate_blank w api s Hp).
Qed.

(** X5.  After any sequence of user events from the first render, each handled
    until its file read and request have settled, the loading flag is off
    and the attached file, if any, has an allowed type and at most
    5*1024*1024 bytes. *)
Theorem reachable_states_are_settled_and_valid
    (api : AxiosInstance) (evs : list (World * ContentGenerator.UserEvent)) :
  ContentGenerator.isLoading
    (fst (ContentGenerator.session api evs ContentGenerator.initial)) = false
  ∧ match ContentGenerator.file
            (fst (ContentGenerator.session api evs ContentGenerator.initial)) with
    | Some f => size f ≤ 5 * 1024 * 1024 ∧ type f ∈ ContentGenerator.allowedTypes
    | None => True
    end.
Proof.
  split.
  - assert (Hgen : ∀ s, ContentGenerator.isLoading s = false →
             ContentGenerator.isLoading (fst (ContentGenerator.session api evs s)) = false).
    { induction evs as [|[w ev] evs IH]; intros s Hidle; simpl; [exact Hidle|].
      pose proof (dispatch_settles w api ev s Hidle) as H1. unfold run_state in H1.
      destruct (ContentGenerator.dispatch w api ev s) as [[r s1] e1]. simpl in H1.
      specialize (IH s1 H1).
      by destruct (ContentGenerator.session api evs s1) as [s2 e2]. }
    by apply Hgen.
  - destruct (session_valid api evs _ initial_valid) as [Hinv _].
    destruct (ContentGenerator.file _) as [f|] eqn:Hf; [|done].
    apply file_valid_spec. by apply Hinv.
Qed.

Lemma dispatch_requests (w : World) (api : AxiosInstance)
    (ev : ContentGenerator.UserEvent) (s : ContentGenerator.State) :
  (length (requests (run_effects (ContentGenerator.dispatch w api ev s)))
   ≤ if isClickGenerate ev then 1 else 0)%nat.
Proof.
  destruct ev as [v|event| |]; simpl.
  - done.
  - rewrite handleFileUpload_run. unfold run_effects.
    destruct (ContentGenerator.selectedFile event) as [f|]; [|done].
    destruct (5 * 1024 * 1024 <? size f); [done|].
    by destruct (JS.array_includes _ _).
  - done.
  - destruct (JS.truthy (JS.trim (ContentGenerator.prompt s))) eqn:Hp.
    + rewrite (handleGenerate_run w api s Hp), handleGenerate_try_run.
      unfold requests.
      destruct (ContentGenerator.file s) as [f|]; [destruct (reader_loads w f)|];
        simpl; try lia; destruct (generate_reply w _); simpl; lia.
    + rewrite (handleGenerate_blank w api s Hp). simpl. lia.
Qed.

(** X6.  Nothing is sent behind the user's back and nothing is retried: in any
    session, the view issues at most one request per click on Generate. *)
Theorem at_most_one_request_per_click
    (api : AxiosInstance) (evs : list (World * ContentGenerator.UserEvent))
    (s : ContentGenerator.State) :
  (length (requests (snd (ContentGenerator.session api evs s)))
   ≤ length (filter (λ ev, isClickGenerate ev.2 = true) evs))%nat.
Proof.
  revert s. induction evs as [|[w ev] evs IH]; intros s; simpl; [done|].
  pose proof (dispatch_requests w api ev s) as H1. unfold run_effects in H1.
  destruct (ContentGenerator.dispatch w api ev s) as [[r s1] e1]. simpl in H1.
  specialize (IH s1).
  destruct (ContentGenerator.session api evs s1) as [s2 e2]. simpl in *.
  unfold requests in *. rewrite filter_app, length_app, filter_cons. simpl.
  destruct (isClickGenerate ev); simpl in *; lia.
Qed.

(** ** File selection, continued *)

Lemma handleFileUpload_file (event : ContentGenerator.ChangeEvent)
    (s : ContentGenerator.State) :
  ContentGenerator.file (run_state (ContentGenerator.handleFileUpload event s))
  = match ContentGenerator.selectedFile event with
    | Some f => if ContentGenerator.file_valid f then Some f else ContentGenerator.file s
    | None => ContentGenerator.file s
    end.
Proof.
  destruct (ContentGenerator.selectedFile event) as [f|] eqn:Hsel.
  - destruct (ContentGenerator.file_valid f) eqn:Hv.
    + by rewrite (handleFileUpload_accepts event f s Hsel Hv).
    + by destruct (handleFileUpload_rejects event f s Hsel Hv) as (t & -> & _).
  - by rewrite handleFileUpload_run, Hsel.
Qed.

(** X7.  After any number of file selections, the attached file is the last
    selected file that passed validation; selections that were rejected or
    carried no file do not count, and if none passed the attachment is the
    one from before. *)
Theorem last_valid_selection_wins
    (api : AxiosInstance) (w : World) (events : list ContentGenerator.ChangeEvent)
    (s : ContentGenerator.State) :
  ContentGenerator.file
    (fst (ContentGenerator.session api
            ((λ e, (w, ContentGenerator.ChangeFile e)) <$> events) s))
  = match last (filter (λ f, ContentGenerator.file_valid f = true)
                  (omap ContentGenerator.selectedFile events)) with
    | Some f => Some f
    | None => ContentGenerator.file s
    end.
Proof.
  revert s. induction events as [|e events IH]; intros s; [reflexivity|].
  cbn [fmap list_fmap ContentGenerator.session ContentGenerator.dispatch omap list_omap].
  pose proof (handleFileUpload_file e s) as Hfile. unfold run_state in Hfile.
  destruct (ContentGenerator.handleFileUpload e s) as [[r s1] e1]. simpl in Hfile.
  specialize (IH s1). fold (@fmap list _) in IH.
  destruct (ContentGenerator.session api _ s1) as [s2 e2]. simpl in IH |- *.
  rewrite IH, Hfile. clear IH Hfile.
  destruct (ContentGenerator.selectedFile e) as [f|]; [|reflexivity].
  rewrite filter_cons.
  destruct (decide (ContentGenerator.file_valid f = true)) as [Hv|Hv].
  - rewrite Hv, last_cons. by destruct (last _).
  - apply not_true_is_false in Hv. by rewrite Hv.
Qed.

(** X8.  Attaching a valid file shows its name and the Remove button; removing it
    again brings a view that had no attachment back to exactly the state it
    was in. *)
Theorem remove_undoes_upload
    (api : AxiosInstance) (w : World) (event : ContentGenerator.ChangeEvent)
    (f : File) (s : ContentGenerator.State) :
  ContentGenerator.file s = None →
  ContentGenerator.selectedFile event = Some f →
  size f ≤ 5 * 1024 * 1024 → type f ∈ ContentGenerator.allowedTypes →
  ContentGenerator.file_label
    (ContentGenerator.render
       (fst (ContentGenerator.session api [(w, ContentGenerator.ChangeFile event)] s)))
  = name f
  ∧ ContentGenerator.remove_file_button
      (ContentGenerator.render
         (fst (ContentGenerator.session api [(w, ContentGenerator.ChangeFile event)] s)))
    = true
  ∧ ContentGenerator.session api
      [(w, ContentGenerator.ChangeFile event); (w, ContentGenerator.ClickRemoveFile)] s
    = (s, []).
Proof.
  intros Hnone Hsel Hsize Htype.
  assert (Hv : ContentGenerator.file_valid f = true) by (by apply file_valid_spec).
  simpl. rewrite (handleFileUpload_accepts event f s Hsel Hv). simpl.
  repeat split. destruct s as [p fl gc iu ld]. simpl in Hnone. by subst fl.
Qed.

Lemma remove_undoes_upload_witness :
  ContentGenerator.session FrontendLibApi.api
    [(Sample.world_down, ContentGenerator.ChangeFile (Sample.select Sample.csv));
     (Sample.world_down, ContentGenerator.ClickRemoveFile)] Sample.typed_prompt
  = (Sample.typed_prompt, []).
Proof.
  apply (remove_undoes_upload FrontendLibApi.api Sample.world_down
           (Sample.select Sample.csv) Sample.csv Sample.typed_prompt).
  - reflexivity.
  - reflexivity.
  - vm_compute. discriminate.
  - apply (bool_decide_unpack _). vm_compute. exact I.
Defined.

(** X9.  Which message a rejected file gets: "File too large" exactly when the
    file exceeds the limit, whatever its type; "Invalid file type" exactly
    when it is within the limit and its type is not allowed; and no toast at
    all exactly when the file is accepted. *)
Theorem rejection_message_checks_size_first
    (event : ContentGenerator.ChangeEvent) (f : File) (s : ContentGenerator.State) :
  ContentGenerator.selectedFile event = Some f →
  (run_effects (ContentGenerator.handleFileUpload event s)
   = [Toasted ContentGenerator.toast_too_large] ↔ 5 * 1024 * 1024 < size f)
  ∧ (run_effects (ContentGenerator.handleFileUpload event s)
     = [Toasted ContentGenerator.toast_invalid_type]
     ↔ size f ≤ 5 * 1024 * 1024 ∧ type f ∉ ContentGenerator.allowedTypes)
  ∧ (run_effects (ContentGenerator.handleFileUpload event s) = []
     ↔ size f ≤ 5 * 1024 * 1024 ∧ type f ∈ ContentGenerator.allowedTypes).
Proof.
  intros Hsel. rewrite handleFileUpload_run, Hsel. unfold run_effects.
  destruct (N.ltb_spec (5 * 1024 * 1024) (size f)) as [Hlt|Hle].
  - simpl. intuition (try discriminate; try lia).
  - destruct (JS.array_includes ContentGenerator.allowedTypes (type f)) eqn:Hty; simpl.
    + apply array_includes_spec in Hty.
      intuition (try discriminate; try lia).
    + assert (Hnot : type f ∉ ContentGenerator.allowedTypes).
      { intros Hin. apply array_includes_spec in Hin. congruence. }
      intuition (try discriminate; try lia).
Qed.

Lemma rejection_message_witness :
  run_effects (ContentGenerator.handleFileUpload
                 (Sample.select {| name := JS.lit "big.png"; size := 6 * 1024 * 1024;
                                   type := JS.lit "image/png"; bytes := [] |})
                 ContentGenerator.initial)
  = [Toasted ContentGenerator.toast_too_large].
Proof.
  apply (proj1 (rejection_message_checks_size_first
                  (Sample.select {| name := JS.lit "big.png"; size := 6 * 1024 * 1024;
                                    type := JS.lit "image/png"; bytes := [] |})
                  {| name := JS.lit "big.png"; size := 6 * 1024 * 1024;
                     type := JS.lit "image/png"; bytes := [] |}
                  ContentGenerator.initial eq_refl)).
  vm_compute. reflexivity.
Defined.

(** ** The trends and sentiment views, continued *)

(** X10.  A refresh always sends exactly one GET to the trends endpoint, with no
    body and without looking at the state.  If it fails, the trends already
    loaded stay on screen; if it succeeds, the list is replaced wholesale, so
    the resulting state does not depend on what was shown before. *)
Theorem refresh_replaces_or_keeps_trends
    (w : World) (api : AxiosInstance) (s : TrendsViewer.State) :
  requests (run_effects (TrendsViewer.fetchTrends w api s))
  = [Http {| instance := api; method := GET; url := JS.lit "/api/v1/trends";
             data := None |}]
  ∧ match trends_reply w (trendsApi.request api) with
    | Rejected _ =>
        TrendsViewer.trends (run_state (TrendsViewer.fetchTrends w api s))
        = TrendsViewer.trends s
        ∧ TrendsViewer.render_body (run_state (TrendsViewer.fetchTrends w api s))
          = TrendsViewer.render_body (TrendsViewer.setIsLoading false s)
    | Fulfilled response =>
        ∀ s0, run_state (TrendsViewer.fetchTrends w api s0)
              = run_state (TrendsViewer.fetchTrends w api s)
    end.
Proof.
  split.
  - rewrite fetchTrends_run. simpl. destruct (trends_reply w _); reflexivity.
  - destruct (trends_reply w (trendsApi.request api)) as [response|error] eqn:Hr.
    + intros s0. rewrite !fetchTrends_run. simpl. rewrite Hr. reflexivity.
    + rewrite fetchTrends_run. simpl. rewrite Hr. split; reflexivity.
Qed.

Section SentimentDisplay.

Import SentimentAnalyzer.

Context (Number_toString toFixed3 : float → jsstring) (toUpperCase : jsstring → jsstring).

(** X11.  The results panel shows an analysis exactly when the view is not
    loading, a score is stored (any number, zero included) and the stored
    label is a non-empty string. *)
Theorem results_are_shown_iff (s : State) :
  (∃ a, render_results Number_toString toFixed3 toUpperCase s = Results a)
  ↔ isLoading s = false ∧ is_Some (sentiment s)
    ∧ JS.truthy_opt (sentimentLabel s) = true.
Proof.
  unfold render_results. split.
  - intros [a Ha]. destruct (isLoading s); [discriminate|].
    destruct (sentiment s) as [score|]; [|discriminate].
    destruct (sentimentLabel s) as [label|]; [|discriminate]. simpl.
    destruct (JS.truthy label); [|discriminate]. eauto.
  - intros (Hidle & [score Hscore] & Hlabel). rewrite Hidle, Hscore.
    destruct (sentimentLabel s) as [label|]; [|discriminate].
    simpl in Hlabel. rewrite Hlabel. eauto.
Qed.

(** X12.  The badge and the progress bar are coloured by two separate pieces of
    code; whenever an analysis is shown they have the same colour, which is
    grey unless the label is exactly "positive" or "negative". *)
Theorem badge_and_bar_agree (s : State) (a : Analysis) :
  render_results Number_toString toFixed3 toUpperCase s = Results a →
  badge_class a = bar_class a ++ JS.lit " text-white"
  ∧ (bar_class a = JS.lit "bg-gray-500"
     ↔ sentimentLabel s ≠ Some (JS.lit "positive")
       ∧ sentimentLabel s ≠ Some (JS.lit "negative")).
Proof.
  unfold render_results. destruct (isLoading s); [discriminate|].
  destruct (sentiment s) as [score|]; [|discriminate].
  destruct (sentimentLabel s) as [label|]; [|discriminate].
  destruct (JS.truthy label); [|discriminate].
  intros [= <-]. simpl. unfold getSentimentColor, bar_color, JS.str_eqb.
  repeat case_bool_decide; simplify_eq; (split; [reflexivity|]);
    (split; [intros Hgrey; try discriminate Hgrey; split; congruence
            |intros [Hp Hn]; try reflexivity; congruence]).
Qed.

End SentimentDisplay.

Lemma badge_and_bar_agree_witness :
  ∃ a, SentimentAnalyzer.render_results Sample.Number_toString (λ _, []) (λ u, u)
         (run_state (SentimentAnalyzer.handleAnalyze
                       (Sample.world_up Sample.post_with_image Sample.two_trends
                          Sample.positive)
                       FrontendLibApi.api Sample.typed_content))
       = SentimentAnalyzer.Results a
       ∧ SentimentAnalyzer.badge_class a = JS.lit "bg-green-500 text-white"
       ∧ SentimentAnalyzer.badge_class a
         = SentimentAnalyzer.bar_class a ++ JS.lit " text-white".
Proof.
  eexists. split; [reflexivity|]. split; [reflexivity|].
  apply (badge_and_bar_agree Sample.Number_toString (λ _, []) (λ u, u)
           (run_state (SentimentAnalyzer.handleAnalyze
                         (Sample.world_up Sample.post_with_image Sample.two_trends
                            Sample.positive)
                         FrontendLibApi.api Sample.typed_content))).
  reflexivity.
Defined.

(** X13.  A fulfilled analysis whose label is the empty string is announced by
    the completion toast, yet nothing is displayed: the results panel keeps
    its placeholder. *)
Theorem unlabelled_analysis_is_not_displayed
    (Number_toString toFixed3 : float → jsstring) (toUpperCase : jsstring → jsstring)
    (w : World) (api : AxiosInstance) (s : SentimentAnalyzer.State)
    (response : Api.AnalyzeResponse) :
  JS.truthy (JS.trim (SentimentAnalyzer.content s)) = true →
  analyze_reply w (analysisApi.request api (SentimentAnalyzer.content s))
  = Fulfilled response →
  Api.sentiment_label response = [] →
  toasts (run_effects (SentimentAnalyzer.handleAnalyze w api s))
  = [Toasted {| title := JS.lit "Analysis complete";
                description := JS.lit "Content sentiment: ";
                variant := None |}]
  ∧ SentimentAnalyzer.render_results Number_toString toFixed3 toUpperCase
      (run_state (SentimentAnalyzer.handleAnalyze w api s))
    = SentimentAnalyzer.Placeholder.
Proof.
  intros Hc Hreply Hlabel.
  rewrite (handleAnalyze_succeeded w api s response Hc Hreply), Hlabel.
  split; reflexivity.
Qed.

Lemma unlabelled_analysis_witness :
  SentimentAnalyzer.render_results Sample.Number_toString (λ _, []) (λ u, u)
    (run_state (SentimentAnalyzer.handleAnalyze
                  (Sample.world_up Sample.post_with_image Sample.two_trends
                     {| Api.sentiment := 0.5; Api.sentiment_label := [] |})
                  FrontendLibApi.api Sample.typed_content))
  = SentimentAnalyzer.Placeholder.
Proof.
  apply (unlabelled_analysis_is_not_displayed Sample.Number_toString (λ _, []) (λ u, u)
           (Sample.world_up Sample.post_with_image Sample.two_trends
              {| Api.sentiment := 0.5; Api.sentiment_label := [] |})
           FrontendLibApi.api Sample.typed_content
           {| Api.sentiment := 0.5; Api.sentiment_label := [] |});
    reflexivity.
Defined.

(** ** The header *)

(** X14.  The theme button always lands on "light" or "dark": on "light"
    when the theme is "dark", and on "dark" from any other theme (the system
    default, or none yet).  Clicking twice brings back the theme one started
    with exactly when that theme was "light" or "dark", and three clicks do
    what one click does. *)
Theorem theme_toggle_alternates (theme : option jsstring) :
  (theme = Some (JS.lit "dark")
   ∧ Header.toggleTheme theme = Some (JS.lit "light")
   ∨ theme ≠ Some (JS.lit "dark")
     ∧ Header.toggleTheme theme = Some (JS.lit "dark"))
  ∧ (Header.toggleTheme theme = Some (JS.lit "light")
     ∨ Header.toggleTheme theme = Some (JS.lit "dark"))
  ∧ (Header.toggleTheme (Header.toggleTheme theme) = theme
     ↔ theme = Some (JS.lit "light") ∨ theme = Some (JS.lit "dark"))
  ∧ Header.toggleTheme (Header.toggleTheme (Header.toggleTheme theme))
    = Header.toggleTheme theme.
Proof.
  unfold Header.toggleTheme.
  destruct (decide (theme = Some (JS.lit "dark"))) as [->|Hd].
  { split; [by left|]. split; [by left|]. split; [|reflexivity].
    split; [by right|reflexivity]. }
  rewrite (bool_decide_eq_false_2 _ Hd).
  split; [by right|]. split; [by right|]. split; [|reflexivity].
  simpl. split.
  - intros <-. by left.
  - intros [->| ->]; [reflexivity|done].
Qed.

(** ** The file payload, continued *)

Lemma alphabet_ascii (n : N) : Base64.alphabet n < 128.
Proof.
  unfold Base64.alphabet.
  repeat match goal with
         | |- context [?a <? ?b] => destruct (N.ltb_spec a b)
         | |- context [?a =? ?b] => destruct (N.eqb_spec a b)
         end; lia.
Qed.

Lemma encode_ascii (bs : list byte) : Forall (λ c, c < 128) (Base64.encode bs).
Proof.
  induction bs as [|a|a b|a b c l IH] using list_ind3; cbn [Base64.encode Base64.sextets].
  - constructor.
  - repeat constructor; try apply alphabet_ascii; unfold Base64.pad; lia.
  - repeat constructor; try apply alphabet_ascii; unfold Base64.pad; lia.
  - repeat (constructor; [apply alphabet_ascii|]). exact IH.
Qed.

Lemma encode_length (bs : list byte) :
  length (Base64.encode bs) = (4 * ((length bs + 2) / 3))%nat.
Proof.
  induction bs as [|a|a b|a b c l IH] using list_ind3; cbn [Base64.encode Base64.sextets].
  - reflexivity.
  - reflexivity.
  - reflexivity.
  - cbn [length]. rewrite IH.
    replace (S (S (S (length l))) + 2)%nat with (length l + 2 + 1 * 3)%nat by lia.
    rewrite Nat.div_add by lia. lia.
Qed.

Lemma fileToBase64_fulfilled (w : World) (f : File) (s : ContentGenerator.State)
    (d : jsstring) :
  run_result (ContentGenerator.fileToBase64 w f s) = Fulfilled d →
  d = DataURL.readAsDataURL f.
Proof.
  unfold ContentGenerator.fileToBase64, await, run_result. simpl.
  destruct (reader_loads w f); [|discriminate]. by intros [= <-].
Qed.

(** X15.  Two files that passed validation are encoded to the same payload only
    if they have the same type and the same bytes: the payload determines
    the content that was attached. *)
Theorem payload_determines_the_file
    (w : World) (f1 f2 : File) (s : ContentGenerator.State) (d : jsstring) :
  ContentGenerator.file_valid f1 = true →
  ContentGenerator.file_valid f2 = true →
  run_result (ContentGenerator.fileToBase64 w f1 s) = Fulfilled d →
  run_result (ContentGenerator.fileToBase64 w f2 s) = Fulfilled d →
  type f1 = type f2 ∧ bytes f1 = bytes f2.
Proof.
  intros Hv1 Hv2 H1 H2.
  apply fileToBase64_fulfilled in H1. apply fileToBase64_fulfilled in H2.
  apply file_valid_spec in Hv1 as [_ Ht1]. apply file_valid_spec in Hv2 as [_ Ht2].
  apply allowedTypes_no_comma in Ht1. apply allowedTypes_no_comma in Ht2.
  assert (Hsplit : DataURL.split_comma (DataURL.readAsDataURL f1)
                   = DataURL.split_comma (DataURL.readAsDataURL f2)) by congruence.
  rewrite !readAsDataURL_shape in Hsplit.
  rewrite !split_comma_app in Hsplit.
  - injection Hsplit as Hheader Hpayload. split.
    + by apply app_inv_tail in Hheader.
    + apply (f_equal Base64.decode) in Hpayload.
      rewrite !decode_encode in Hpayload. congruence.
  - unfold DataURL.no_comma in *. rewrite !forallb_app, Ht2. reflexivity.
  - unfold DataURL.no_comma in *. rewrite !forallb_app, Ht1. reflexivity.
Qed.

Lemma payload_determines_the_file_witness :
  type Sample.csv = JS.lit "text/csv"
  ∧ bytes Sample.csv = [x61; x2c; x62; x0a; x31; x2c; x32; x0a]%byte.
Proof.
  apply (payload_determines_the_file Sample.world_down Sample.csv
           {| name := JS.lit "copy-of-leads.csv"; size := 8; type := JS.lit "text/csv";
              bytes := [x61; x2c; x62; x0a; x31; x2c; x32; x0a]%byte |}
           Sample.typed_prompt (JS.lit "data:text/csv;base64,YSxiCjEsMgo="));
    reflexivity.
Defined.

(** X16.  The payload of a file that passed validation is plain ASCII, and its
    length is that of the type plus 13 characters of header plus four
    characters for every three bytes of content, rounded up. *)
Theorem payload_is_ascii_and_a_third_longer
    (w : World) (f : File) (s : ContentGenerator.State) (d : jsstring) :
  ContentGenerator.file_valid f = true →
  run_result (ContentGenerator.fileToBase64 w f s) = Fulfilled d →
  Forall (λ c, c < 128) d
  ∧ length d = (length (type f) + 13 + 4 * ((length (bytes f) + 2) / 3))%nat.
Proof.
  intros Hv Hd. apply fileToBase64_fulfilled in Hd. subst d.
  unfold DataURL.readAsDataURL. split.
  - rewrite !Forall_app. split; [by repeat constructor|]. split; [|split].
    + apply file_valid_spec in Hv as [_ Hty].
      apply list_elem_of_In in Hty. simpl in Hty.
      destruct Hty as [<-|[<-|[<-|[]]]]; by repeat constructor.
    + by repeat constructor.
    + apply encode_ascii.
  - rewrite !length_app, encode_length. simpl. lia.
Qed.

Lemma payload_is_ascii_witness :
  Forall (λ c, c < 128) (DataURL.readAsDataURL Sample.csv)
  ∧ length (DataURL.readAsDataURL Sample.csv) = 33%nat.
Proof.
  apply (payload_is_ascii_and_a_third_longer Sample.world_down Sample.csv
           Sample.typed_prompt (DataURL.readAsDataURL Sample.csv)); reflexivity.
Defined.

(** ** What is on display *)

Lemma session_snoc (api : AxiosInstance)
    (evs : list (World * ContentGenerator.UserEvent)) (w : World)
    (ev : ContentGenerator.UserEvent) (s : ContentGenerator.State) :
  fst (ContentGenerator.session api (evs ++ [(w, ev)]) s)
  = run_state (ContentGenerator.dispatch w api ev
                 (fst (ContentGenerator.session api evs s))).
Proof.
  revert s. induction evs as [|[w' ev'] evs IH]; intros s; simpl.
  - unfold run_state. by destruct (ContentGenerator.dispatch w api ev s) as [[r s1] e1].
  - destruct (ContentGenerator.dispatch w' api ev' s) as [[r s1] e1].
    specialize (IH s1).
    destruct (ContentGenerator.session api (evs ++ [(w, ev)]) s1) as [s2 e2].
    destruct (ContentGenerator.session api evs s1) as [s3 e3]. exact IH.
Qed.

(** What one event does to the text and image on display: nothing, or it is
    a click on Generate whose request was sent and fulfilled, and both are
    taken from that response. *)
Lemma dispatch_display (w : World) (api : AxiosInstance)
    (ev : ContentGenerator.UserEvent) (s : ContentGenerator.State) :
  (ContentGenerator.generatedContent (run_state (ContentGenerator.dispatch w api ev s))
   = ContentGenerator.generatedContent s
   ∧ ContentGenerator.imageUrl (run_state (ContentGenerator.dispatch w api ev s))
     = ContentGenerator.imageUrl s)
  ∨ (ev = ContentGenerator.ClickGenerate
     ∧ ∃ response,
         Http (contentApi.request api (ContentGenerator.prompt s)
                 (ContentGenerator.fileData s))
         ∈ run_effects (ContentGenerator.handleGenerate w api s)
         ∧ generate_reply w
             (contentApi.request api (ContentGenerator.prompt s)
                (ContentGenerator.fileData s)) = Fulfilled response
         ∧ ContentGenerator.generatedContent
             (run_state (ContentGenerator.dispatch w api ev s))
           = Api.content response
         ∧ ContentGenerator.imageUrl
             (run_state (ContentGenerator.dispatch w api ev s))
           = Api.image_url response).
Proof.
  destruct ev as [v|event| |]; simpl.
  - by left.
  - left. rewrite handleFileUpload_run. unfold run_state.
    destruct (ContentGenerator.selectedFile event) as [f|]; [|done].
    destruct (5 * 1024 * 1024 <? size f); [done|].
    by destruct (JS.array_includes _ _).
  - by left.
  - destruct (JS.truthy (JS.trim (ContentGenerator.prompt s))) eqn:Hp;
      [|left; by rewrite (handleGenerate_blank w api s Hp)].
    destruct (generate_reply w
                (contentApi.request api (ContentGenerator.prompt s)
                   (ContentGenerator.fileData s))) as [response|error] eqn:Hreply.
    + destruct (ContentGenerator.file s) as [f|] eqn:Hf.
      * destruct (reader_loads w f) eqn:Hload.
        -- right. split; [reflexivity|]. exists response.
           assert (Hread : ∀ f', ContentGenerator.file s = Some f' →
                                 reader_loads w f' = true) by (intros f'; congruence).
           rewrite (handleGenerate_succeeded w api s response Hp Hread Hreply).
           unfold run_effects, run_state. simpl. split; [|done].
           apply elem_of_app. right. apply list_elem_of_here.
        -- left. rewrite (handleGenerate_run w api s Hp), handleGenerate_try_run.
           by rewrite Hf, Hload.
      * right. split; [reflexivity|]. exists response.
        assert (Hread : ∀ f', ContentGenerator.file s = Some f' →
                              reader_loads w f' = true) by (intros f'; congruence).
        rewrite (handleGenerate_succeeded w api s response Hp Hread Hreply).
        unfold run_effects, run_state. simpl. split; [|done].
        apply elem_of_app. right. apply list_elem_of_here.
    + left. rewrite (handleGenerate_run w api s Hp), handleGenerate_try_run.
      unfold ContentGenerator.fileData in Hreply.
      destruct (ContentGenerator.file s) as [f|]; simpl in Hreply.
      * destruct (reader_loads w f); [|done]. simpl. by rewrite Hreply.
      * simpl. by rewrite Hreply.
Qed.

(** X17.  Whatever the user does, the text on display and the image on
    display belong together: either nothing was generated yet, or the
    session has a click on Generate whose handling sent a request that was
    fulfilled, and both are the content and the image URL of that one
    response. *)
Theorem displayed_text_and_image_belong_together
    (api : AxiosInstance) (evs : list (World * ContentGenerator.UserEvent)) :
  shown_from api evs (fst (ContentGenerator.session api evs ContentGenerator.initial)).
Proof.
  induction evs as [|[w ev] evs IH] using rev_ind.
  - by left.
  - rewrite session_snoc.
    destruct (dispatch_display w api ev
                (fst (ContentGenerator.session api evs ContentGenerator.initial)))
      as [[Hc Hi]|(-> & response & Hsent & Hreply & Hc & Hi)].
    + destruct IH as [[Hc0 Hi0]|(pre & w' & post & response & -> & Hrest)].
      * left. split; congruence.
      * right. exists pre, w', (post ++ [(w, ev)]), response.
        split; [by rewrite <- app_assoc|].
        destruct Hrest as (Hsent & Hreply & Hc' & Hi').
        repeat split; try done; congruence.
    + right. exists evs, w, [], response. by repeat split.
Qed.

(** X18.  After a fulfilled refresh the toast announces exactly as many trends as
    cards are shown, and zero when the placeholder is shown. *)
Theorem refresh_toast_counts_the_cards
    (w : World) (api : AxiosInstance) (s : TrendsViewer.State)
    (response : Api.TrendsResponse) :
  trends_reply w (trendsApi.request api) = Fulfilled response →
  ∃ n, toasts (run_effects (TrendsViewer.fetchTrends w api s))
       = [Toasted {| title := JS.lit "Trends updated";
                     description := JS.lit "Loaded " ++ JS.length_toString n
                                    ++ JS.lit " marketing trends";
                     variant := None |}]
       ∧ match TrendsViewer.render_body (run_state (TrendsViewer.fetchTrends w api s)) with
         | TrendsViewer.Grid cards => length cards = n ∧ n ≠ 0%nat
         | TrendsViewer.NoTrends _ => n = 0%nat
         | TrendsViewer.Spinner => False
         end.
Proof.
  intros Hr. exists (length (Api.trends response)).
  rewrite fetchTrends_run. simpl. rewrite Hr. split; [reflexivity|].
  unfold run_state, TrendsViewer.render_body. simpl.
  destruct (Api.trends response) as [|t l]; [reflexivity|].
  simpl. split; [|done]. f_equal. apply length_imap.
Qed.

Lemma refresh_toast_counts_the_cards_witness :
  ∃ n, toasts (run_effects (TrendsViewer.fetchTrends
                              (Sample.world_up Sample.post_with_image Sample.two_trends
                                 Sample.positive)
                              FrontendLibApi.api TrendsViewer.initial))
       = [Toasted {| title := JS.lit "Trends updated";
                     description := JS.lit "Loaded " ++ JS.length_toString n
                                    ++ JS.lit " marketing trends";
                     variant := None |}]
       ∧ match TrendsViewer.render_body
                 (run_state (TrendsViewer.fetchTrends
                               (Sample.world_up Sample.post_with_image Sample.two_trends
                                  Sample.positive)
                               FrontendLibApi.api TrendsViewer.initial)) with
         | TrendsViewer.Grid cards => length cards = n ∧ n ≠ 0%nat
         | TrendsViewer.NoTrends _ => n = 0%nat
         | TrendsViewer.Spinner => False
         end.
Proof.
  apply (refresh_toast_counts_the_cards
           (Sample.world_up Sample.post_with_image Sample.two_trends Sample.positive)
           FrontendLibApi.api TrendsViewer.initial Sample.two_trends).
  reflexivity.
Defined.
